(** * pymotdstats: a shallow embedding of the collection and classification
    pipeline of [src/pymotdstats.py], and the properties its specification
    states about it.

    Python values are modelled as the script uses them: integers as [Z],
    text as [string] (code points below 256), sets as [gset], dictionaries
    as [gmap], exceptions as the [Raise] branch of [result]. *)

From Stdlib Require Import ZArith Strings.String Strings.Ascii List Bool Lia.
From Stdlib Require Floats.PrimFloat Floats.FloatOps Floats.SpecFloat.
From Stdlib Require Numbers.Cyclic.Int63.Uint63.
From stdpp Require Import base option list gmap strings.

Local Open Scope string_scope.
Local Open Scope Z_scope.

(** ** Exceptions *)

(** The exception classes the modelled code can raise. *)
Inductive exn :=
  | IndexError | ValueError | TypeError | KeyError
  | ZeroDivisionError | OverflowError | CalledProcessError.

Inductive result (A : Type) :=
  | Ok (a : A)
  | Raise (e : exn).
Arguments Ok {A} a.
Arguments Raise {A} e.

#[global] Instance result_ret : MRet result := fun A a => Ok a.
#[global] Instance result_bind : MBind result := fun A B f m =>
  match m with
  | Ok a => f a
  | Raise e => Raise e
  end.

Definition is_ok {A} (r : result A) : bool :=
  match r with Ok _ => true | Raise _ => false end.

(** [l[i]] for a non-negative literal index. *)
Definition index {A} (l : list A) (i : nat) : result A :=
  match l !! i with
  | Some x => Ok x
  | None => Raise IndexError
  end.

(** [l[-1]]. *)
Definition index_last {A} (l : list A) : result A :=
  match last l with
  | Some x => Ok x
  | None => Raise IndexError
  end.

(** ** Python [str] primitives *)

Module PyStr.

(** [str.isspace] on one code point below 256: the characters on which
    [str.split()], [str.strip()], [int()] and the regular expression class
    [\s] agree. *)
Definition is_space (c : ascii) : bool :=
  let n := nat_of_ascii c in
  ((9 <=? n) && (n <=? 13) || (28 <=? n) && (n <=? 32)
   || (n =? 133) || (n =? 160))%nat.

Definition cons_nonempty (w : string) (ws : list string) : list string :=
  if String.eqb w "" then ws else w :: ws.

(** The word that starts at the head of [s] and the words after it. *)
Fixpoint fields (s : string) : string * list string :=
  match s with
  | "" => ("", [])
  | String c s' =>
      let '(w, ws) := fields s' in
      if is_space c then ("", cons_nonempty w ws) else (String c w, ws)
  end.

(** [s.split()] *)
Definition split (s : string) : list string :=
  let '(w, ws) := fields s in cons_nonempty w ws.

Fixpoint pieces (sep : ascii) (s : string) : string * list string :=
  match s with
  | "" => ("", [])
  | String c s' =>
      let '(w, ws) := pieces sep s' in
      if Ascii.eqb c sep then ("", w :: ws) else (String c w, ws)
  end.

(** [s.split(sep)] for a separator of one character. *)
Definition split_on (sep : ascii) (s : string) : list string :=
  let '(w, ws) := pieces sep s in w :: ws.

Fixpoint lstrip (s : string) : string :=
  match s with
  | "" => ""
  | String c s' => if is_space c then lstrip s' else s
  end.

Fixpoint rstrip (s : string) : string :=
  match s with
  | "" => ""
  | String c s' =>
      let r := rstrip s' in
      if is_space c && String.eqb r "" then "" else String c r
  end.

(** [s.strip()] *)
Definition strip (s : string) : string := rstrip (lstrip s).

(** [s[:-1]] *)
Fixpoint drop_last (s : string) : string :=
  match s with
  | "" => ""
  | String c "" => ""
  | String c s' => String c (drop_last s')
  end.

(** [s.startswith(p)] *)
Definition startswith (p s : string) : bool := String.prefix p s.

Definition digit_val (c : ascii) : option Z :=
  let n := nat_of_ascii c in
  if ((48 <=? n) && (n <=? 57))%nat then Some (Z.of_nat (n - 48)) else None.

(** Decimal digits with single underscores between them. *)
Fixpoint digits (acc : Z) (after_digit : bool) (s : string) : option Z :=
  match s with
  | "" => if after_digit then Some acc else None
  | String c s' =>
      match digit_val c with
      | Some d => digits (10 * acc + d) true s'
      | None =>
          if Ascii.eqb c "_" && after_digit then digits acc false s' else None
      end
  end.

(** [int(s)]: [None] stands for [ValueError].  The interpreter's optional
    cap on the number of digits is not modelled. *)
Definition int (s : string) : option Z :=
  match strip s with
  | String "+" r => digits 0 false r
  | String "-" r => Z.opp <$> digits 0 false r
  | t => digits 0 false t
  end.

(** [re.compile(r'^\s*#').match(s)] as a boolean. *)
Definition is_comment (s : string) : bool :=
  match lstrip s with
  | String "#" _ => true
  | _ => false
  end.

End PyStr.

(** ** The [Protocol] enumeration *)

Inductive Protocol := TCP | TCP6 | UDP | UDP6.

Module Proto.

Definition value (p : Protocol) : string :=
  match p with
  | TCP => "tcp"
  | TCP6 => "tcp6"
  | UDP => "udp"
  | UDP6 => "udp6"
  end.

(** Iteration over the class, in definition order. *)
Definition members : list Protocol := [TCP; TCP6; UDP; UDP6].

(** [Protocol.from_value] on a [str] argument ([None] when no member has
    that value; an argument of another type gives [None] as well). *)
Definition from_value (v : string) : option Protocol :=
  List.find (fun p => String.eqb (value p) v) members.

(** [__lt__], [__eq__] *)
Definition lt (a b : Protocol) : bool := String.ltb (value a) (value b).
Definition eq (a b : Protocol) : bool := String.eqb (value a) (value b).

Section Hash.

(** The interpreter's hash of a [str]. *)
Variable str_hash : string -> Z.

(** [__hash__] *)
Definition hash (p : Protocol) : Z := str_hash (value p).

End Hash.

End Proto.

#[global] Instance Protocol_eq_dec : EqDecision Protocol.
Proof. solve_decision. Defined.

#[global] Instance Protocol_countable : Countable Protocol.
Proof.
  refine (inj_countable'
    (fun p => match p with TCP => 0%nat | TCP6 => 1%nat | UDP => 2%nat | UDP6 => 3%nat end)
    (fun n => match n with 0%nat => TCP | 1%nat => TCP6 | 2%nat => UDP | _ => UDP6 end) _).
  by intros [].
Defined.

(** A monitored or observed port: the tuple [(number, protocol)]. *)
Definition port : Type := Z * Protocol.

(** [==] on two such tuples: component by component. *)
Definition port_eq (p q : port) : bool := (p.1 =? q.1)%Z && Proto.eq p.2 q.2.

(** [<] on two such tuples, as [sorted] uses it: the first components
    decide unless they are equal. *)
Definition port_lt (p q : port) : bool :=
  if (p.1 =? q.1)%Z then Proto.lt p.2 q.2 else (p.1 <? q.1)%Z.

(** [s.add(x)] *)
Definition set_add `{Countable A} (x : A) (s : gset A) : gset A := {[x]} ∪ s.

(** ** Configuration: [get_config] and the module-level thresholds *)

(** The value stored under one configuration key. *)
Inductive setting :=
  | SInt (n : Z)               (* an int *)
  | SNone                      (* [None]: the text was not an integer *)
  | SNames (s : gset string)   (* a set of str *)
  | SInts (s : gset Z).        (* a set of int *)

(** What the parser exposes: for each section name, the (key, text) pairs
    that iterating the section yields. *)
Abbreviation ini := (gmap string (list (string * string))).
Abbreviation config := (gmap string setting).

Definition nonempty (x : string) : bool := negb (String.eqb x "").

(** [filter(lambda x: x, map(str.strip, text.split(',')))] *)
Definition tokens (text : string) : list string :=
  List.filter nonempty (PyStr.strip <$> PyStr.split_on "," text).

Definition int_setting (text : string) : setting :=
  match PyStr.int (PyStr.strip text) with
  | Some n => SInt n
  | None => SNone
  end.

Definition names_setting (text : string) : setting :=
  SNames (list_to_set (tokens text)).

Definition ints_setting (text : string) : setting :=
  match mapM PyStr.int (tokens text) with
  | Some ns => SInts (list_to_set ns)
  | None => SInts ∅
  end.

(** [for k in parser[s]: config[k] = f(parser[s][k])] *)
Definition store (f : string -> setting) (c : config)
    (items : list (string * string)) : config :=
  foldl (fun c kv => <[kv.1 := f kv.2]> c) c items.

Definition load_section (f : string -> setting) (p : ini) (c : config)
    (s : string) : config :=
  match p !! s with
  | Some items => store f c items
  | None => c
  end.

(** [get_config]: [None] is a path that is not a file, or a file the parser
    rejects. *)
Definition get_config (file : option ini) : config :=
  match file with
  | None => ∅
  | Some p =>
      let c := foldl (load_section int_setting p) ∅ ["display"; "threshold"] in
      let c := foldl (load_section names_setting p) c ["disk"; "services"] in
      load_section ints_setting p c "ports"
  end.

(** Truth value of a stored setting. *)
Definition truthy (v : setting) : bool :=
  match v with
  | SInt n => negb (n =? 0)%Z
  | SNone => false
  | SNames s => negb (bool_decide (s = ∅))
  | SInts s => negb (bool_decide (s = ∅))
  end.

(** [config.get(k, d) or d] *)
Definition get_or (c : config) (k : string) (d : Z) : setting :=
  let v := default (SInt d) (c !! k) in
  if truthy v then v else SInt d.

Definition DISK_WARNING (c : config) := get_or c "disk_warning" 80.
Definition DISK_CRITICAL (c : config) := get_or c "disk_critical" 90.
Definition MEM_WARNING (c : config) := get_or c "mem_warning" 80.
Definition MEM_CRITICAL (c : config) := get_or c "mem_critical" 90.
Definition SWAP_WARNING (c : config) := get_or c "swap_warning" 10.
Definition SWAP_CRITICAL (c : config) := get_or c "swap_critical" 20.
Definition MAX_ROWS (c : config) := get_or c "max_rows" 15.
Definition col_width (c : config) := get_or c "col_width" 32.

(** The text a section holds for a key: the one of its last pair with
    that key. *)
Definition last_value (k : string) (items : list (string * string))
    : option string :=
  foldl (fun acc kv => if String.eqb kv.1 k then Some kv.2 else acc) None items.

Definition section_text (p : ini) (s k : string) : option string :=
  p !! s ≫= last_value k.

(** The text of a key of the numeric sections. *)
Definition numeric_text (p : ini) (k : string) : option string :=
  match section_text p "threshold" k with
  | Some text => Some text
  | None => section_text p "display" k
  end.

(** ** Probes *)

(** Outcome of [check_output]: the text written by the tool, a tool that is
    not installed ([FileNotFoundError]), or a non-zero exit status
    ([CalledProcessError]). *)
Inductive run :=
  | Output (out : string)
  | NotFound
  | Failed.

(** A [for] loop whose body may raise. *)
Fixpoint for_each {A S} (body : S -> A -> result S) (s : S) (l : list A)
    : result S :=
  match l with
  | [] => Ok s
  | x :: l' => s' ← body s x; for_each body s' l'
  end.

Definition lines (out : string) : list string :=
  PyStr.split_on "010" (PyStr.strip out).

Definition to_int (s : string) : result Z :=
  match PyStr.int s with
  | Some n => Ok n
  | None => Raise ValueError
  end.

Definition ignore_words : list string :=
  ["debugfs"; "devpts"; "proc"; "sysfs"; "tmpfs"].

Definition member (x : string) (l : list string) : bool :=
  existsb (String.eqb x) l.

(** Body of the loop of [get_mount_points]. *)
Definition mount_line (mount_points : gset string) (line : string)
    : result (gset string) :=
  if PyStr.is_comment line then Ok mount_points
  else
    let array := PyStr.split line in
    if (2 <=? length array)%nat then
      a0 ← index array 0;
      if member a0 ignore_words then Ok mount_points
      else
        a2 ← index array 2;
        if String.eqb a2 "swap" then Ok mount_points
        else a1 ← index array 1; Ok (set_add a1 mount_points)
    else Ok mount_points.

(** [get_mount_points]: [None] is a missing [/etc/fstab]. *)
Definition get_mount_points (fstab : option (list string))
    : result (gset string) :=
  match fstab with
  | None => Ok ∅
  | Some file_ => for_each mount_line ∅ file_
  end.

(** The inner dictionary of [get_disk_space]: [use%] and [available]. *)
Definition usage : Type := Z * string.

(** A dictionary with [str] keys, in insertion order. *)
Fixpoint dict_set {V} (k : string) (v : V) (d : list (string * V))
    : list (string * V) :=
  match d with
  | [] => [(k, v)]
  | (k', v') :: d' =>
      if String.eqb k' k then (k', v) :: d' else (k', v') :: dict_set k v d'
  end.

(** Body of the loop of [get_disk_space]. *)
Definition df_line (mount_points exclude : gset string)
    (results : list (string * usage)) (line : string)
    : result (list (string * usage)) :=
  let array := PyStr.split line in
  a5 ← index array 5;
  if bool_decide (a5 ∈ mount_points) && negb (bool_decide (a5 ∈ exclude)) then
    a4 ← index array 4;
    use ← to_int (PyStr.drop_last a4);
    a3 ← index array 3;
    Ok (dict_set a5 (use, a3) results)
  else Ok results.

(** [get_disk_space]: a first argument that is not a set is [None]. *)
Definition get_disk_space (mount_points : option (gset string))
    (exclude : gset string) (df : run) : result (list (string * usage)) :=
  match mount_points with
  | None => Ok []
  | Some mps =>
      match df with
      | Output out => for_each (df_line mps exclude) [] (lines out)
      | NotFound => Ok []
      | Failed => Raise CalledProcessError
      end
  end.

(** Body of the loop of [get_listening_ports]. *)
Definition netstat_line (listening_ports : gset port) (line : string)
    : result (gset port) :=
  let array := PyStr.split line in
  proto ← index array 0;
  a3 ← index array 3;
  current_port ← index_last (PyStr.split_on ":" a3);
  listening ←
    (if member proto ["tcp"; "tcp6"] then
       a5 ← index array 5; Ok (PyStr.startswith "LISTEN" a5)
     else Ok false);
  if listening || member proto ["udp"; "udp6"] then
    n ← to_int current_port;
    match Proto.from_value proto with
    | Some pr => Ok (set_add (n, pr) listening_ports)
    | None => Ok listening_ports
    end
  else Ok listening_ports.

Definition get_listening_ports (netstat : run) : result (gset port) :=
  match netstat with
  | Output out => for_each netstat_line ∅ (lines out)
  | NotFound => Ok ∅
  | Failed => Raise CalledProcessError
  end.

(** [for k in s: d[k] = v] *)
Definition fill `{Countable K} {V} (v : V) (s : gset K) (d : gmap K V)
    : gmap K V :=
  set_fold (fun k d => <[k := v]> d) d s.

(** [get_checked_ports]: an argument that is not a set is [None]. *)
Definition get_checked_ports (ports_to_monitor : option (gset port))
    (netstat : run) : result (gmap port bool) :=
  match ports_to_monitor with
  | None => Ok ∅
  | Some monitored =>
      listening_ports ← get_listening_ports netstat;
      let ports_on_error := monitored ∖ listening_ports in
      let ports_on_success := monitored ∖ ports_on_error in
      Ok (fill true ports_on_success (fill false ports_on_error ∅))
  end.

(** What one [pgrep --exact s] call stores in [results[s]]. *)
Definition service_state (r : run) : bool :=
  match r with
  | Output out => (0 <? length (lines out))%nat
  | NotFound => false
  | Failed => false
  end.

(** [get_checked_services]: the loop runs over the module-level
    [services_to_monitor]; the parameter ([None] when it is not a set) is
    only tested for its type. *)
Definition get_checked_services (services_to_monitor : gset string)
    (pgrep : string -> run) (_services_to_monitor : option (gset string))
    : gmap string bool :=
  match _services_to_monitor with
  | None => ∅
  | Some _ =>
      set_fold (fun s results => <[s := service_state (pgrep s)]> results)
        ∅ services_to_monitor
  end.

(** ** Python [float] arithmetic

    A finite float is the dyadic number [m * 2^e]; the operations round to
    nearest, ties to even, onto 53 significant bits with exponents down to
    [-1074], as IEEE 754 binary64 does. *)

Module PyFloat.

Inductive float :=
  | Finite (m e : Z)
  | Inf (neg : bool)
  | NaN.

Definition emin : Z := -1074.

(** [2^k] for [k >= 0], and [1] below. *)
Definition up (k : Z) : Z := 2 ^ Z.max 0 k.

(** [floor (log2 (a / b))] for positive [a] and [b]. *)
Definition ilog2 (a b : Z) : Z :=
  let k := Z.log2 a - Z.log2 b in
  if b * up k <=? a * up (- k) then k else k - 1.

(** [n / d] rounded to the nearest integer, ties to even ([0 <= n], [0 < d]). *)
Definition rne (n d : Z) : Z :=
  let q := n / d in
  let r := n mod d in
  if 2 * r <? d then q
  else if d <? 2 * r then q + 1
  else if Z.even q then q else q + 1.

(** The exponent of the last place of [a / b], and its rounded mantissa. *)
Definition round_pos (a b : Z) : Z * Z :=
  let e := Z.max (ilog2 a b - 52) emin in
  (rne (a * up (- e)) (b * up e), e).

(** [a / b] rounded to a float ([0 < b]). *)
Definition round (a b : Z) : float :=
  if a =? 0 then Finite 0 0
  else
    let '(m, e) := round_pos (Z.abs a) b in
    if 2 ^ 1024 * up (- e) <=? m * up e then Inf (a <? 0)
    else Finite (Z.sgn a * m) e.

(** [a / b] on two ints. *)
Definition truediv (a b : Z) : result float :=
  if b =? 0 then Raise ZeroDivisionError
  else
    match round (a * Z.sgn b) (Z.abs b) with
    | Finite m e => Ok (Finite m e)
    | _ => Raise OverflowError
    end.

(** [float(n)] as the operand of a mixed operation. *)
Definition of_int (n : Z) : result float :=
  match round n 1 with
  | Finite m e => Ok (Finite m e)
  | _ => Raise OverflowError
  end.

Definition opp (x : float) : float :=
  match x with
  | Finite m e => Finite (- m) e
  | Inf neg => Inf (negb neg)
  | NaN => NaN
  end.

(** [x - y] on two floats. *)
Definition sub (x y : float) : float :=
  match x, y with
  | Finite m1 e1, Finite m2 e2 =>
      let e := Z.min e1 e2 in
      let m := m1 * 2 ^ (e1 - e) - m2 * 2 ^ (e2 - e) in
      round (m * up e) (up (- e))
  | NaN, _ | _, NaN => NaN
  | Inf s, Finite _ _ => Inf s
  | Finite _ _, Inf s => Inf (negb s)
  | Inf s1, Inf s2 => if Bool.eqb s1 s2 then NaN else Inf s1
  end.

(** [n - y] with an int on the left. *)
Definition rsub (n : Z) (y : float) : result float :=
  x ← of_int n; Ok (sub x y).

(** [int(x)]: truncation toward zero. *)
Definition to_int (x : float) : result Z :=
  match x with
  | Finite m e => Ok (if 0 <=? e then m * 2 ^ e else Z.quot m (2 ^ (- e)))
  | Inf _ => Raise OverflowError
  | NaN => Raise ValueError
  end.

End PyFloat.

(** ** The same arithmetic on the machine's binary64 numbers

    Used to compare the model above with hardware floats on operands that
    convert exactly (below [2^53], or a power of two below [2^63]). *)

Module Hardware.

Definition of_Z (n : Z) : PrimFloat.float :=
  PrimFloat.of_uint63 (Uint63.of_Z n).

(** [100 - 100 * free / total] *)
Definition used (free total : Z) : SpecFloat.spec_float :=
  FloatOps.Prim2SF
    (PrimFloat.sub (of_Z 100) (PrimFloat.div (of_Z (100 * free)) (of_Z total))).

(** [100 * part / total] *)
Definition part (part total : Z) : SpecFloat.spec_float :=
  FloatOps.Prim2SF (PrimFloat.div (of_Z (100 * part)) (of_Z total)).

(** Whether a modelled float and a hardware float are the same number. *)
Definition same (x : PyFloat.float) (y : SpecFloat.spec_float) : bool :=
  match x, y with
  | PyFloat.Finite m e, SpecFloat.S754_zero _ => m =? 0
  | PyFloat.Finite m e, SpecFloat.S754_finite s m' e' =>
      let v := if s then Z.neg m' else Z.pos m' in
      let e0 := Z.min e e' in
      m * 2 ^ (e - e0) =? v * 2 ^ (e' - e0)
  | PyFloat.Inf s, SpecFloat.S754_infinity s' => Bool.eqb s s'
  | PyFloat.NaN, SpecFloat.S754_nan => true
  | _, _ => false
  end.

(** The model of [100 - 100 * free / total], before [int]. *)
Definition model_used (free total : Z) : result PyFloat.float :=
  q ← PyFloat.truediv (100 * free) total; PyFloat.rsub 100 q.

Definition agree (r : result PyFloat.float) (y : SpecFloat.spec_float) : bool :=
  match r with Ok x => same x y | Raise _ => false end.

End Hardware.

(** ** Classification and the status headings *)

(** The three colours of [TermColor] that carry a severity. *)
Inductive color := green | orange | red.

#[global] Instance color_eq_dec : EqDecision color.
Proof. solve_decision. Defined.

(** A percentage cell: an int, or the text ['---']. *)
Inductive cell :=
  | VInt (n : Z)
  | VStr (s : string).

(** [v >= t] with an int threshold [t]. *)
Definition ge (v : cell) (t : Z) : result bool :=
  match v with
  | VInt n => Ok (t <=? n)
  | VStr _ => Raise TypeError
  end.

(** [a or b] on two comparisons. *)
Definition or_else (a b : result bool) : result bool :=
  x ← a; if x : bool then Ok true else b.

(** One formatted line of the memory column. *)
Record row := Row {
  row_color : color;
  row_title : string;
  row_value : cell;
  row_percent : cell
}.

(** The colour [add_memory_row] picks. *)
Definition text_color (warn crit : Z) (percent : cell) : result color :=
  c ← ge percent crit;
  if c : bool then Ok red
  else w ← ge percent warn; if w : bool then Ok orange else Ok green.

Definition add_memory_row (rows : list row) (warn crit : Z)
    (title : string) (value percent : cell) : result (list row) :=
  col ← text_color warn crit percent;
  Ok (rows ++ [Row col title value percent])%list.

(** The colour of one partition line. *)
Definition partition_color (warn crit use : Z) : color :=
  if crit <=? use then red
  else if warn <=? use then orange
  else green.

(** The loop that sets [disk_status_color]. *)
Definition disk_status_step (warn crit : Z) (c : color)
    (entry : string * usage) : color :=
  if crit <=? entry.2.1 then red
  else if (warn <=? entry.2.1) && negb (bool_decide (c = red)) then orange
  else c.

Definition disk_status_color (warn crit : Z)
    (disk_space : list (string * usage)) : color :=
  foldl (disk_status_step warn crit) green disk_space.

Record thresholds := Thresholds {
  mem_warning : Z;
  mem_critical : Z;
  swap_warning : Z;
  swap_critical : Z
}.

Definition getitem (d : gmap string Z) (k : string) : result Z :=
  match d !! k with
  | Some v => Ok v
  | None => Raise KeyError
  end.

(** [int(100 - 100 * free / total)] *)
Definition used_perc (free total : Z) : result Z :=
  q ← PyFloat.truediv (100 * free) total;
  d ← PyFloat.rsub 100 q;
  PyFloat.to_int d.

(** [int(100 * part / total)] *)
Definition part_perc (part total : Z) : result Z :=
  q ← PyFloat.truediv (100 * part) total; PyFloat.to_int q.

(** [int(kb / 1024)] *)
Definition megabytes (kb : Z) : result Z :=
  q ← PyFloat.truediv kb 1024; PyFloat.to_int q.

(** [swap_perc] and [swap_used]. *)
Definition swap_cells (meminfo : gmap string Z) : result (cell * cell) :=
  swap_total ← getitem meminfo "SwapTotal";
  if swap_total =? 0 then Ok (VStr "---", VStr "---")
  else
    swap_free ← getitem meminfo "SwapFree";
    swap_total ← getitem meminfo "SwapTotal";
    swap_perc ← used_perc swap_free swap_total;
    swap_total ← getitem meminfo "SwapTotal";
    swap_free ← getitem meminfo "SwapFree";
    swap_used ← megabytes (swap_total - swap_free);
    Ok (VInt swap_perc, VInt swap_used).

(** [memory_status_color] from the four percentages. *)
Definition memory_status (t : thresholds)
    (mem_perc : Z) (swap_perc : cell) (buffers_perc cached_perc : Z)
    : result color :=
  crit ← or_else (ge (VInt mem_perc) (mem_critical t))
          (or_else (ge swap_perc (swap_critical t))
            (or_else (ge (VInt buffers_perc) (mem_critical t))
                     (ge (VInt cached_perc) (mem_critical t))));
  if crit : bool then Ok red
  else
    warn ← or_else (ge (VInt mem_perc) (mem_warning t))
            (or_else (ge swap_perc (swap_warning t))
              (or_else (ge (VInt buffers_perc) (mem_warning t))
                       (ge (VInt cached_perc) (mem_warning t))));
    if warn : bool then Ok orange else Ok green.

(** The memory column: its heading colour and its rows. *)
Definition memory_column (t : thresholds) (meminfo : gmap string Z)
    : result (color * list row) :=
  if bool_decide (meminfo = ∅) then Ok (green, [])
  else
    mem_free ← getitem meminfo "MemFree";
    mem_total ← getitem meminfo "MemTotal";
    mem_perc ← used_perc mem_free mem_total;
    mem_used ← megabytes (mem_total - mem_free);
    '(swap_perc, swap_used) ← swap_cells meminfo;
    buffers_kb ← getitem meminfo "Buffers";
    buffers ← megabytes buffers_kb;
    buffers_perc ← part_perc buffers_kb mem_total;
    cached_kb ← getitem meminfo "Cached";
    cached ← megabytes cached_kb;
    cached_perc ← part_perc cached_kb mem_total;
    reclaimable_kb ← getitem meminfo "SReclaimable";
    reclaimable ← megabytes reclaimable_kb;
    reclaimable_perc ← part_perc reclaimable_kb mem_total;
    memory_status_color ← memory_status t mem_perc swap_perc buffers_perc cached_perc;
    rows ← add_memory_row [] (mem_warning t) (mem_critical t)
              "Memory" (VInt mem_used) (VInt mem_perc);
    rows ← add_memory_row rows (swap_warning t) (swap_critical t)
              "Swap" swap_used swap_perc;
    rows ← add_memory_row rows (mem_warning t) (mem_critical t)
              "Buffers" (VInt buffers) (VInt buffers_perc);
    rows ← add_memory_row rows (mem_warning t) (mem_critical t)
              "Cached" (VInt cached) (VInt cached_perc);
    rows ← add_memory_row rows (mem_warning t) (mem_critical t)
              "Reclaimable" (VInt reclaimable) (VInt reclaimable_perc);
    Ok (memory_status_color, rows).

(** ** Severities, as the specification orders them *)

(** normal < warning < critical *)
Definition rank (c : color) : nat :=
  match c with green => 0 | orange => 1 | red => 2 end.

Definition worst (a b : color) : color :=
  if (rank a <? rank b)%nat then b else a.

(** The worst severity of a list, [green] for the empty list. *)
Definition worst_of (l : list color) : color := foldr worst green l.

(** ** Well-formed probe inputs *)

Definition parses (s : string) : bool :=
  match PyStr.int s with Some _ => true | None => false end.

(** A comment, or a line that does not have exactly two fields. *)
Definition fstab_line_ok (line : string) : bool :=
  PyStr.is_comment line || negb (length (PyStr.split line) =? 2)%nat.

Definition fstab_ok (fstab : option (list string)) : bool :=
  match fstab with
  | None => true
  | Some file_ => forallb fstab_line_ok file_
  end.

(** At least six fields, and an integer before the last character of the
    fifth when the sixth is a mount point to report. *)
Definition df_line_ok (mount_points exclude : gset string) (line : string)
    : bool :=
  match PyStr.split line with
  | _ :: _ :: _ :: _ :: a4 :: a5 :: _ =>
      if bool_decide (a5 ∈ mount_points) && negb (bool_decide (a5 ∈ exclude))
      then parses (PyStr.drop_last a4) else true
  | _ => false
  end.

Definition df_ok (mount_points exclude : gset string) (df : run) : bool :=
  match df with
  | Output out => forallb (df_line_ok mount_points exclude) (lines out)
  | NotFound => true
  | Failed => false
  end.

Definition port_ok (local_address : string) : bool :=
  match last (PyStr.split_on ":" local_address) with
  | Some current_port => parses current_port
  | None => false
  end.

(** At least four fields; for tcp and tcp6 a sixth field, and for every
    line that is kept an integer after the last colon of the fourth. *)
Definition netstat_line_ok (line : string) : bool :=
  match PyStr.split line with
  | proto :: _ :: _ :: a3 :: rest =>
      if member proto ["tcp"; "tcp6"] then
        match rest with
        | _ :: a5 :: _ =>
            if PyStr.startswith "LISTEN" a5 then port_ok a3 else true
        | _ => false
        end
      else if member proto ["udp"; "udp6"] then port_ok a3
      else true
  | _ => false
  end.

Definition netstat_ok (netstat : run) : bool :=
  match netstat with
  | Output out => forallb netstat_line_ok (lines out)
  | NotFound => true
  | Failed => false
  end.

(** ** Sample inputs *)

(** A snapshot with swap space, and the default thresholds. *)
Definition sample_meminfo : gmap string Z :=
  <["MemTotal" := 1000]> (<["MemFree" := 250]> (<["SwapTotal" := 100]>
  (<["SwapFree" := 85]> (<["Buffers" := 10]> (<["Cached" := 20]>
  (<["SReclaimable" := 5]> ∅)))))).

Definition default_thresholds : thresholds := Thresholds 80 90 10 20.


(** Two listening sockets, as [netstat -nlp] prints them. *)
Definition sample_netstat : run :=
  Output "Active Internet connections (only servers)
Proto Recv-Q Send-Q Local Address           Foreign Address         State       PID/Program name
tcp        0      0 0.0.0.0:22              0.0.0.0:*               LISTEN      812/sshd
udp        0      0 127.0.0.53:53           0.0.0.0:*                           640/systemd-resolve
".

(** A host on which only [sshd] runs. *)
Definition sample_pgrep (s : string) : run :=
  if String.eqb s "sshd" then Output "812
" else Failed.

(** A configuration file with one threshold and one port list. *)
Definition sample_ini : ini :=
  {[ "threshold" := [("disk_warning", "85"); ("disk_critical", " ninety ")];
     "ports" := [("tcp_ports_to_monitor", "22, 80,,443 ");
                 ("udp_ports_to_monitor", "53,dns")] ]}.

Definition sample_fstab : list string :=
  [ "# /etc/fstab: static file system information.
";   "/dev/sda1 /home ext4 defaults 0 1
";   "tmpfs /tmp tmpfs defaults 0 0
";   "/dev/sda2 none swap sw 0 0
";   "
" ].

Definition sample_df : run :=
  Output "Filesystem      Size  Used Avail Use% Mounted on
/dev/sda3        50G   45G  2,5G  95% /
/dev/sda1       200G  100G  100G  50% /home
".

(** The same report with a device name too long for its column. *)
Definition wrapped_df : run :=
  Output "Filesystem      Size  Used Avail Use% Mounted on
/dev/mapper/vg0-root
                 50G   45G  2,5G  95% /
".

(** A snapshot without swap space. *)
Definition zero_swap_meminfo : gmap string Z :=
  <["MemTotal" := 1000]> (<["MemFree" := 500]> (<["SwapTotal" := 0]>
  (<["SwapFree" := 0]> (<["Buffers" := 10]> (<["Cached" := 20]>
  (<["SReclaimable" := 5]> ∅)))))).

(** ** Further probes *)

Definition UNKNOWN_ADDRESS : string := "Unknown address".

Definition meminfo_keys : list string :=
  ["MemFree"; "MemTotal"; "SwapFree"; "SwapTotal";
   "Buffers"; "Cached"; "SReclaimable"].

(** Body of the loop of [get_meminfo]: the unpacking into [key, size]
    raises [ValueError] unless the line has exactly one colon. *)
Definition meminfo_line (meminfo : gmap string Z) (line : string)
    : result (gmap string Z) :=
  match PyStr.strip <$> PyStr.split_on ":" line with
  | [key; size] =>
      if member key meminfo_keys then
        first ← index (PyStr.split size) 0;
        n ← to_int first;
        Ok (<[key := n]> meminfo)
      else Ok meminfo
  | _ => Raise ValueError
  end.

(** [get_meminfo]: [None] is a missing [/proc/meminfo]. *)
Definition get_meminfo (file_ : option (list string))
    : result (gmap string Z) :=
  match file_ with
  | None => Ok ∅
  | Some file_ => for_each meminfo_line ∅ file_
  end.

(** Body of the loop of [get_users]. *)
Definition who_line (users : gset string) (line : string) : gset string :=
  match PyStr.split line with
  | a0 :: _ => set_add a0 users
  | [] => users
  end.

Definition get_users (who : run) : result (gset string) :=
  match who with
  | Output out => Ok (foldl who_line ∅ (lines out))
  | NotFound => Ok ∅
  | Failed => Raise CalledProcessError
  end.

(** The loop of [get_default_iface] over the lines of the routing table. *)
Fixpoint default_route (file_ : list string) : result (option string) :=
  match file_ with
  | [] => Ok None
  | line :: rest =>
      let word := PyStr.split line in
      w1 ← index word 1;
      if String.eqb w1 "00000000" then w0 ← index word 0; Ok (Some w0)
      else default_route rest
  end.

(** [get_default_iface]: [None] as argument is a missing
    [/proc/net/route], [None] as result is the value [None]. *)
Definition get_default_iface (route : option (list string))
    : result (option string) :=
  match route with
  | None => Ok None
  | Some file_ => default_route file_
  end.

(** The inner loop of [get_ip]: the word after the first [src]. *)
Fixpoint after_src (last_word : string) (words : list string)
    : option string :=
  match words with
  | [] => None
  | word :: rest =>
      if String.eqb last_word "src" then Some word else after_src word rest
  end.

Fixpoint first_src (ls : list string) : option string :=
  match ls with
  | [] => None
  | line :: rest =>
      match after_src "" (PyStr.split line) with
      | Some word => Some word
      | None => first_src rest
      end
  end.

(** [get_ip]: [ip_route] is the outcome of [ip route list dev <iface>]. *)
Definition get_ip (iface : option string) (ip_route : string -> run)
    : result string :=
  match iface with
  | None => Ok UNKNOWN_ADDRESS
  | Some dev =>
      match ip_route dev with
      | Output out => Ok (default UNKNOWN_ADDRESS (first_src (lines out)))
      | NotFound => Ok UNKNOWN_ADDRESS
      | Failed => Raise CalledProcessError
      end
  end.

(** ** The services and ports heading *)

(** [all(d.values())] *)
Definition all_values `{Countable K} (d : gmap K bool) : bool :=
  forallb id ((map_to_list d).*2).

Definition services_ports_status_color (checked_ports : gmap port bool)
    (checked_services : gmap string bool) : color :=
  if all_values checked_ports && all_values checked_services then green
  else red.

(** ** What one line contributes *)

(** The mount point an fstab line adds. *)
Definition fstab_entry (line : string) : option string :=
  if PyStr.is_comment line then None
  else
    match PyStr.split line with
    | a0 :: a1 :: a2 :: _ =>
        if member a0 ignore_words || String.eqb a2 "swap" then None
        else Some a1
    | _ => None
    end.

(** A line with two fields and a device that is not ignored. *)
Definition fstab_bad (line : string) : bool :=
  negb (PyStr.is_comment line)
  && match PyStr.split line with
     | [a0; _] => negb (member a0 ignore_words)
     | _ => false
     end.

(** ** Further sample inputs *)

(** [sample_ini] with a port key repeated in the threshold section. *)
Definition override_ini : ini :=
  <["threshold" := [("tcp_ports_to_monitor", "7")]]> sample_ini.

Definition services_ini : ini :=
  {[ "services" := [("services_to_monitor", "sshd, nginx,,cron ")] ]}.

(** * Properties *)

Example split_fstab :
  PyStr.split "/dev/sda1  /home	ext4 defaults 0 1
" = ["/dev/sda1"; "/home"; "ext4"; "defaults"; "0"; "1"].
Proof. reflexivity. Qed.

Example split_on_empty : PyStr.split_on "," "" = [""].
Proof. reflexivity. Qed.

Example split_on_commas :
  PyStr.split_on "," "80, 443,,x" = ["80"; " 443"; ""; "x"].
Proof. reflexivity. Qed.

Example strip_both : PyStr.strip "  a b
" = "a b".
Proof. reflexivity. Qed.

Example int_examples :
  PyStr.int " 42 " = Some 42 /\ PyStr.int "-7" = Some (-7)
  /\ PyStr.int "1_000" = Some 1000 /\ PyStr.int "1__0" = None
  /\ PyStr.int "" = None /\ PyStr.int "8o" = None /\ PyStr.int "007" = Some 7.
Proof. repeat split; reflexivity. Qed.

(** ** Protocol and port identity *)

Lemma proto_eq_iff (a b : Protocol) : Proto.eq a b = true <-> a = b.
Proof. destruct a, b; split; intros H; try reflexivity; discriminate H. Qed.

Lemma port_eq_iff (p q : port) : port_eq p q = true <-> p = q.
Proof.
  destruct p as [n a], q as [m b]. unfold port_eq. simpl.
  rewrite andb_true_iff, Z.eqb_eq, proto_eq_iff. split.
  - intros [-> ->]. reflexivity.
  - intros [= -> ->]. split; reflexivity.
Qed.

(** C7: [Protocol] is the closed enumeration of tcp, tcp6, udp and udp6;
    its equality, hash and order are those of its string value, the order
    being a strict total order; two (port, protocol) pairs are equal exactly
    when both components are, so (80, tcp) differs from (80, udp); and a set
    keeps one copy of equal pairs. *)
Theorem protocol_identity (str_hash : string -> Z) :
  (forall p : Protocol, In p Proto.members)
  /\ NoDup (Proto.value <$> Proto.members)
  /\ (forall p, Proto.from_value (Proto.value p) = Some p)
  /\ (forall v p, Proto.from_value v = Some p <-> Proto.value p = v)
  /\ (forall a b, Proto.eq a b = true <-> Proto.value a = Proto.value b)
  /\ (forall a b, Proto.eq a b = true <-> a = b)
  /\ (forall a b, Proto.eq a b = true ->
        Proto.hash str_hash a = Proto.hash str_hash b)
  /\ (forall a b, Proto.lt a b = String.ltb (Proto.value a) (Proto.value b))
  /\ (forall a, Proto.lt a a = false)
  /\ (forall a b c, Proto.lt a b = true -> Proto.lt b c = true ->
        Proto.lt a c = true)
  /\ (forall a b, Proto.lt a b = true \/ a = b \/ Proto.lt b a = true)
  /\ (forall p q : port, port_eq p q = true <-> p.1 = q.1 /\ p.2 = q.2)
  /\ port_eq (80, TCP) (80, UDP) = false
  /\ (80, TCP) ≠ ((80, UDP) : port)
  /\ (forall (p q : port) (s : gset port), port_eq p q = true ->
        set_add q (set_add p s) = set_add p s)
  /\ (forall (p q : port), port_eq p q = false ->
        size (set_add q (set_add p ∅)) = 2%nat).
Proof.
  repeat apply conj.
  - intros []; simpl; tauto.
  - by apply (bool_decide_unpack _).
  - intros []; reflexivity.
  - intros v p. split.
    + unfold Proto.from_value. intros H. apply find_some in H as [_ H].
      by apply String.eqb_eq in H.
    + intros <-. by destruct p.
  - intros a b. unfold Proto.eq. apply String.eqb_eq.
  - apply proto_eq_iff.
  - intros a b H. apply proto_eq_iff in H. by subst.
  - reflexivity.
  - intros []; reflexivity.
  - intros [] [] []; intros H1 H2; try reflexivity; discriminate.
  - intros [] []; vm_compute; auto.
  - intros p q. rewrite port_eq_iff. destruct p, q; simpl. split.
    + intros [= -> ->]. done.
    + intros [-> ->]. done.
  - reflexivity.
  - discriminate.
  - intros p q s H. apply port_eq_iff in H. subst. unfold set_add.
    by rewrite (assoc_L (∪)), (idemp_L (∪)).
  - intros p q H. unfold set_add.
    assert (p ≠ q) as Hne.
    { intros ->. assert (port_eq q q = true) by by apply port_eq_iff.
      congruence. }
    rewrite (right_id_L ∅ (∪)), size_union, !size_singleton; [done|].
    by apply disjoint_singleton_l, not_elem_of_singleton.
Qed.

(** ** Classification *)

Lemma text_color_int (warn crit v : Z) :
  text_color warn crit (VInt v) = Ok (partition_color warn crit v).
Proof.
  unfold text_color, partition_color. simpl.
  destruct (crit <=? v); [done|]. simpl. by destruct (warn <=? v).
Qed.

Lemma partition_color_red (warn crit v : Z) :
  partition_color warn crit v = red <-> crit <= v.
Proof.
  unfold partition_color.
  destruct (Z.leb_spec crit v), (Z.leb_spec warn v); split; intros; try lia; congruence.
Qed.

Lemma partition_color_orange (warn crit v : Z) :
  partition_color warn crit v = orange <-> warn <= v < crit.
Proof.
  unfold partition_color.
  destruct (Z.leb_spec crit v), (Z.leb_spec warn v); split; intros; try lia; congruence.
Qed.

Lemma partition_color_green (warn crit v : Z) :
  partition_color warn crit v = green <-> v < crit /\ v < warn.
Proof.
  unfold partition_color.
  destruct (Z.leb_spec crit v), (Z.leb_spec warn v); split; intros; try lia; congruence.
Qed.

Lemma add_memory_row_int rows warn crit title value v :
  add_memory_row rows warn crit title value (VInt v)
  = Ok (rows ++ [Row (partition_color warn crit v) title value (VInt v)])%list.
Proof. unfold add_memory_row. by rewrite text_color_int. Qed.

Lemma add_memory_row_str rows warn crit title value s :
  add_memory_row rows warn crit title value (VStr s) = Raise TypeError.
Proof. reflexivity. Qed.

(** Splits a conjunction into its parts, leaving equivalences whole. *)
Ltac split_conj := repeat match goal with |- _ /\ _ => split end.

(** Steps through a chain of binds that is known to return. *)
Ltac step_ok H :=
  match type of H with
  | mbind _ ?m = Ok _ =>
      let E := fresh "E" in
      destruct m eqn:E; simpl in H; [| discriminate H]
  | (let '(_, _) := ?p in _) = Ok _ => destruct p; simpl in H
  end.

(** When the memory column is produced, its five rows carry the colours of
    the one rule, each with the thresholds of its kind. *)
Lemma memory_column_rows t meminfo c rows :
  meminfo ≠ ∅ ->
  memory_column t meminfo = Ok (c, rows) ->
  exists mem_used mem_perc swap_used swap_perc buffers buffers_perc
         cached cached_perc reclaimable reclaimable_perc,
    rows =
      [ Row (partition_color (mem_warning t) (mem_critical t) mem_perc)
          "Memory" mem_used (VInt mem_perc);
        Row (partition_color (swap_warning t) (swap_critical t) swap_perc)
          "Swap" swap_used (VInt swap_perc);
        Row (partition_color (mem_warning t) (mem_critical t) buffers_perc)
          "Buffers" buffers (VInt buffers_perc);
        Row (partition_color (mem_warning t) (mem_critical t) cached_perc)
          "Cached" cached (VInt cached_perc);
        Row (partition_color (mem_warning t) (mem_critical t) reclaimable_perc)
          "Reclaimable" reclaimable (VInt reclaimable_perc) ].
Proof.
  intros Hne H. unfold memory_column in H.
  rewrite bool_decide_eq_false_2 in H by done.
  do 5 step_ok H. destruct a3 as [swap_perc swap_used].
  do 10 step_ok H.
  rewrite add_memory_row_int in H. simpl in H.
  destruct swap_perc as [sp|s]; [|discriminate H].
  repeat (rewrite add_memory_row_int in H; simpl in H).
  injection H as _ <-. by repeat eexists.
Qed.

(** C3: an integer value is critical exactly when it reaches the critical
    threshold, warning exactly when it reaches the warning threshold but not
    the critical one, and normal otherwise; the partition lines and the five
    memory rows are coloured by this one rule. *)
Theorem classification_rule (v warn crit : Z) :
  (text_color warn crit (VInt v) = Ok red <-> crit <= v)
  /\ (text_color warn crit (VInt v) = Ok orange <-> warn <= v < crit)
  /\ (text_color warn crit (VInt v) = Ok green <->
        ~ crit <= v /\ ~ warn <= v < crit)
  /\ text_color warn crit (VInt v) = Ok (partition_color warn crit v)
  /\ (forall rows title value,
        add_memory_row rows warn crit title value (VInt v)
        = Ok (rows ++ [Row (partition_color warn crit v) title value (VInt v)])%list)
  /\ (forall t meminfo c rows,
        meminfo ≠ ∅ -> memory_column t meminfo = Ok (c, rows) ->
        exists mem_perc swap_perc buffers_perc cached_perc reclaimable_perc,
          (row_color <$> rows) =
            [ partition_color (mem_warning t) (mem_critical t) mem_perc;
              partition_color (swap_warning t) (swap_critical t) swap_perc;
              partition_color (mem_warning t) (mem_critical t) buffers_perc;
              partition_color (mem_warning t) (mem_critical t) cached_perc;
              partition_color (mem_warning t) (mem_critical t) reclaimable_perc ]
          /\ (row_percent <$> rows) =
            [ VInt mem_perc; VInt swap_perc; VInt buffers_perc;
              VInt cached_perc; VInt reclaimable_perc ]).
Proof.
  rewrite text_color_int. split_conj.
  - split.
    + intros [= H]. by apply partition_color_red in H.
    + intros H. f_equal. by apply partition_color_red.
  - split.
    + intros [= H]. by apply partition_color_orange in H.
    + intros H. f_equal. by apply partition_color_orange.
  - split.
    + intros [= H]. apply partition_color_green in H. lia.
    + intros H. f_equal. apply partition_color_green. lia.
  - reflexivity.
  - intros. apply add_memory_row_int.
  - intros t meminfo c rows Hne H.
    destruct (memory_column_rows _ _ _ _ Hne H)
      as (mu & mp & su & sp & b & bp & ca & cp & r & rp & ->).
    by exists mp, sp, bp, cp, rp.
Qed.

Lemma sample_meminfo_nonempty : sample_meminfo ≠ ∅.
Proof.
  intros E. apply (f_equal (fun m => m !! "MemTotal")) in E.
  vm_compute in E. discriminate E.
Qed.

Lemma classification_rule_witness :
  exists rows mem_perc swap_perc buffers_perc cached_perc reclaimable_perc,
    memory_column default_thresholds sample_meminfo = Ok (orange, rows)
    /\ (row_color <$> rows) =
         [ partition_color 80 90 mem_perc; partition_color 10 20 swap_perc;
           partition_color 80 90 buffers_perc;
           partition_color 80 90 cached_perc;
           partition_color 80 90 reclaimable_perc ].
Proof.
  destruct (classification_rule 0 0 0) as (_ & _ & _ & _ & _ & H).
  assert (exists rows,
    memory_column default_thresholds sample_meminfo = Ok (orange, rows))
    as [rows Hrows] by (eexists; vm_compute; reflexivity).
  destruct (H default_thresholds sample_meminfo orange rows
              sample_meminfo_nonempty Hrows)
    as (mp & sp & bp & cp & rp & Hc & _).
  exists rows, mp, sp, bp, cp, rp. split; [exact Hrows|exact Hc].
Defined.

(** ** The disk status heading *)

Lemma disk_status_fold warn crit c ds :
  foldl (disk_status_step warn crit) c ds
  = worst c (worst_of ((fun e => partition_color warn crit e.2.1) <$> ds)).
Proof.
  revert c. induction ds as [|[k [use avail]] ds IH]; intros c; simpl.
  - by destruct c.
  - rewrite IH. unfold disk_status_step, partition_color. simpl.
    set (w := worst_of _).
    destruct (crit <=? use), (warn <=? use), c, w; reflexivity.
Qed.

(** C5: the disk status heading carries the worst severity over the
    reported mount points, normal when none is reported; mounts at 95% and
    50% with a critical threshold of 90 give critical. *)
Theorem disk_status_is_worst (warn crit : Z) (disk_space : list (string * usage)) :
  disk_status_color warn crit disk_space
  = worst_of ((fun e => partition_color warn crit e.2.1) <$> disk_space)
  /\ disk_status_color warn crit [] = green
  /\ disk_status_color warn 90 [("/", (95, "1,0G")); ("/home", (50, "20G"))] = red.
Proof.
  split_conj.
  - unfold disk_status_color. rewrite disk_status_fold. by destruct (worst_of _).
  - reflexivity.
  - unfold disk_status_color. simpl. unfold disk_status_step. simpl.
    by destruct (warn <=? 50).
Qed.

(** ** Checked ports and services *)

Lemma lookup_set_fold_insert `{Countable K} {V} (f : K -> V) (s : gset K)
    (d : gmap K V) (k : K) :
  set_fold (fun k d => <[k := f k]> d) d s !! k
  = if decide (k ∈ s) then Some (f k) else d !! k.
Proof.
  refine (set_fold_ind_L
    (fun r X => r !! k = if decide (k ∈ X) then Some (f k) else d !! k)
    _ d _ _ s).
  - by rewrite decide_False by apply not_elem_of_empty.
  - intros x X r Hx IH. destruct (decide (x = k)) as [->|Hne].
    + rewrite lookup_insert_eq.
      rewrite decide_True; [done|].
      by apply elem_of_union_l, elem_of_singleton.
    + rewrite lookup_insert_ne by done. rewrite IH.
      destruct (decide (k ∈ X)) as [Hin|Hnin].
      * by rewrite decide_True by by apply elem_of_union_r.
      * rewrite decide_False; [done|].
        intros [Hk%elem_of_singleton|Hk]%elem_of_union; congruence.
Qed.

Lemma dom_of_lookup `{Countable K} {V} (m : gmap K V) (s : gset K)
    (f : K -> V) :
  (forall k, m !! k = if decide (k ∈ s) then Some (f k) else None) ->
  dom m = s.
Proof.
  intros Hm. apply set_eq. intros k. rewrite elem_of_dom, Hm.
  destruct (decide (k ∈ s)) as [Hk|Hk]; split.
  - done.
  - intros _. by eexists.
  - by intros [v Hv].
  - done.
Qed.

Lemma lookup_fill `{Countable K} {V} (v : V) (s : gset K) (d : gmap K V) k :
  fill v s d !! k = if decide (k ∈ s) then Some v else d !! k.
Proof. apply (lookup_set_fold_insert (fun _ => v)). Qed.

Lemma lookup_checked_ports (M L : gset port) (p : port) :
  fill true (M ∖ (M ∖ L)) (fill false (M ∖ L) ∅) !! p
  = if decide (p ∈ M) then Some (bool_decide (p ∈ L)) else None.
Proof.
  rewrite !lookup_fill, lookup_empty.
  destruct (decide (p ∈ M)) as [HM|HM], (decide (p ∈ L)) as [HL|HL].
  - rewrite decide_True, bool_decide_eq_true_2; [done..|].
    apply elem_of_difference. split; [done|].
    rewrite elem_of_difference. tauto.
  - rewrite decide_False, decide_True, bool_decide_eq_false_2; [done..| |].
    + by apply elem_of_difference.
    + rewrite !elem_of_difference. tauto.
  - rewrite !decide_False; [done| |]; rewrite ?elem_of_difference; tauto.
  - rewrite !decide_False; [done| |]; rewrite ?elem_of_difference; tauto.
Qed.

(** C6: when the listening set is observed, the port check returns a
    dictionary whose keys are exactly the monitored pairs, each mapped to
    [True] exactly when it is in the observed set; an empty monitored set
    gives an empty dictionary; the values are booleans. *)
Theorem checked_ports_spec (monitored observed : gset port) (netstat : run) :
  get_listening_ports netstat = Ok observed ->
  exists checked : gmap port bool,
    get_checked_ports (Some monitored) netstat = Ok checked
    /\ dom checked = monitored
    /\ (forall p, checked !! p
          = if decide (p ∈ monitored) then Some (bool_decide (p ∈ observed))
            else None)
    /\ (forall p, checked !! p = Some true <-> p ∈ monitored /\ p ∈ observed)
    /\ (forall p, checked !! p = Some false <-> p ∈ monitored /\ p ∉ observed)
    /\ get_checked_ports (Some ∅) netstat = Ok ∅.
Proof.
  intros HL. unfold get_checked_ports. rewrite HL. simpl.
  eexists. split; [reflexivity|].
  assert (forall p : port,
    fill true (monitored ∖ (monitored ∖ observed))
      (fill false (monitored ∖ observed) ∅) !! p
    = if decide (p ∈ monitored) then Some (bool_decide (p ∈ observed))
      else None) as Hlook by apply lookup_checked_ports.
  split_conj.
  - by apply (dom_of_lookup _ _ (fun p => bool_decide (p ∈ observed))).
  - done.
  - intros p. rewrite Hlook. destruct (decide (p ∈ monitored)).
    + split.
      * intros [= Hb]. by apply bool_decide_eq_true in Hb.
      * intros [_ Hp]. by rewrite bool_decide_eq_true_2.
    + split; [done|tauto].
  - intros p. rewrite Hlook. destruct (decide (p ∈ monitored)).
    + split.
      * intros [= Hb]. by apply bool_decide_eq_false in Hb.
      * intros [_ Hp]. by rewrite bool_decide_eq_false_2.
    + split; [done|tauto].
  - f_equal. apply map_eq. intros p.
    rewrite lookup_checked_ports, lookup_empty.
    by rewrite decide_False by apply not_elem_of_empty.
Qed.

Lemma checked_ports_spec_witness :
  exists checked : gmap port bool,
    get_checked_ports (Some {[(22, TCP); (80, TCP)]}) sample_netstat
      = Ok checked
    /\ checked !! (22, TCP) = Some true
    /\ checked !! (80, TCP) = Some false
    /\ checked !! (53, UDP) = None.
Proof.
  destruct (checked_ports_spec {[(22, TCP); (80, TCP)]}
              {[(22, TCP); (53, UDP)]} sample_netstat)
    as (checked & Hc & _ & Hlook & _).
  - vm_compute. reflexivity.
  - exists checked. split; [exact Hc|]. rewrite !Hlook.
    split_conj; reflexivity.
Defined.

(** C10: the service check runs over the module-level set whatever set it
    is given: its result has the module-level names as keys, each with the
    state of its own search, and is the same for any two set arguments; an
    argument that is not a set gives an empty dictionary. *)
Theorem checked_services_use_global (services_to_monitor : gset string)
    (pgrep : string -> run) (S1 S2 : gset string) :
  get_checked_services services_to_monitor pgrep (Some S1)
  = get_checked_services services_to_monitor pgrep (Some S2)
  /\ dom (get_checked_services services_to_monitor pgrep (Some S1))
     = services_to_monitor
  /\ (forall s,
        get_checked_services services_to_monitor pgrep (Some S1) !! s
        = if decide (s ∈ services_to_monitor)
          then Some (service_state (pgrep s)) else None)
  /\ get_checked_services services_to_monitor pgrep None = ∅.
Proof.
  assert (forall s,
    get_checked_services services_to_monitor pgrep (Some S1) !! s
    = if decide (s ∈ services_to_monitor)
      then Some (service_state (pgrep s)) else None) as Hlook.
  { intros s. unfold get_checked_services.
    by rewrite (lookup_set_fold_insert (fun s => service_state (pgrep s))). }
  split_conj; [reflexivity| |exact Hlook|reflexivity].
  by apply (dom_of_lookup _ _ (fun s => service_state (pgrep s))).
Qed.

Example checked_services_other_argument :
  get_checked_services {["sshd"]} sample_pgrep (Some {["nginx"]})
  = {["sshd" := true]}.
Proof. by vm_compute. Qed.

(** ** Configuration *)

Lemma last_value_snoc k items kv :
  last_value k (items ++ [kv])
  = if String.eqb kv.1 k then Some kv.2 else last_value k items.
Proof. unfold last_value. by rewrite foldl_snoc. Qed.

Lemma lookup_store f (c : config) items k :
  store f c items !! k
  = match last_value k items with
    | Some text => Some (f text)
    | None => c !! k
    end.
Proof.
  induction items as [|kv items IH] using rev_ind; [done|].
  unfold store in *. rewrite foldl_snoc, last_value_snoc.
  destruct (String.eqb_spec kv.1 k) as [->|Hne].
  - by rewrite lookup_insert_eq.
  - by rewrite lookup_insert_ne.
Qed.

Lemma lookup_load_section f p (c : config) s k :
  load_section f p c s !! k
  = match section_text p s k with
    | Some text => Some (f text)
    | None => c !! k
    end.
Proof.
  unfold load_section, section_text.
  destruct (p !! s) as [items|]; simpl; [apply lookup_store|done].
Qed.

(** Which section decides a key: the sections are read in the order
    display, threshold, disk, services, ports, and a later one overwrites. *)
Lemma lookup_get_config (p : ini) (k : string) :
  get_config (Some p) !! k
  = match section_text p "ports" k with
    | Some text => Some (ints_setting text)
    | None =>
    match section_text p "services" k with
    | Some text => Some (names_setting text)
    | None =>
    match section_text p "disk" k with
    | Some text => Some (names_setting text)
    | None => int_setting <$> numeric_text p k
    end end end.
Proof.
  unfold get_config, numeric_text. simpl.
  rewrite !lookup_load_section, lookup_empty.
  repeat (destruct (section_text p _ k); [done|]). done.
Qed.

Lemma elem_of_tokens text t :
  t ∈ tokens text
  <-> t ≠ "" /\ t ∈ (PyStr.strip <$> PyStr.split_on "," text).
Proof.
  unfold tokens. rewrite !list_elem_of_In, filter_In.
  unfold nonempty. rewrite negb_true_iff.
  destruct (String.eqb_spec t ""); split; intros []; split; congruence.
Qed.

(** C8: a port list keeps no empty token; if one of the remaining tokens is
    not an integer the key holds the empty set, and otherwise exactly the
    integers of the tokens. *)
Theorem port_list_fail_closed (p : ini) (k text : string) :
  section_text p "ports" k = Some text ->
  get_config (Some p) !! k = Some (ints_setting text)
  /\ ("" ∉ tokens text)
  /\ (forall t, t ∈ tokens text
        <-> t ≠ "" /\ t ∈ (PyStr.strip <$> PyStr.split_on "," text))
  /\ ((exists t, t ∈ tokens text /\ PyStr.int t = None) ->
        ints_setting text = SInts ∅)
  /\ ((forall t, t ∈ tokens text -> is_Some (PyStr.int t)) ->
        exists ports : gset Z,
          ints_setting text = SInts ports
          /\ forall n, n ∈ ports
               <-> exists t, t ∈ tokens text /\ PyStr.int t = Some n).
Proof.
  intros Hk. split_conj.
  - by rewrite lookup_get_config, Hk.
  - rewrite elem_of_tokens. tauto.
  - apply elem_of_tokens.
  - intros (t & Ht & Hint). unfold ints_setting.
    rewrite (proj2 (mapM_None _ _)); [done|].
    apply Exists_exists. eauto.
  - intros Hall. unfold ints_setting.
    destruct (mapM PyStr.int (tokens text)) as [ns|] eqn:E.
    + exists (list_to_set ns). split; [done|]. intros n.
      rewrite elem_of_list_to_set. apply mapM_Some in E.
      clear Hall. induction E as [|t m ts ms Htm _ IH].
      * split; [by intros ?%elem_of_nil|].
        by intros (t & ?%elem_of_nil & _).
      * rewrite elem_of_cons, IH. split.
        -- intros [->|(t' & Ht' & Hn)].
           ++ exists t. split; [left|done].
           ++ exists t'. split; [by right|done].
        -- intros (t' & [->|Ht']%elem_of_cons & Hn).
           ++ left. congruence.
           ++ right. eauto.
    + apply mapM_None, Exists_exists in E as (t & Ht & Hnone).
      destruct (Hall t Ht) as [n Hn]. congruence.
Qed.

Lemma port_list_fail_closed_witness :
  get_config (Some sample_ini) !! "tcp_ports_to_monitor"
    = Some (SInts {[22; 80; 443]})
  /\ get_config (Some sample_ini) !! "udp_ports_to_monitor" = Some (SInts ∅).
Proof.
  split.
  - destruct (port_list_fail_closed sample_ini "tcp_ports_to_monitor"
                "22, 80,,443 " ltac:(vm_compute; reflexivity)) as [H _].
    rewrite H. vm_compute. reflexivity.
  - destruct (port_list_fail_closed sample_ini "udp_ports_to_monitor"
                "53,dns" ltac:(vm_compute; reflexivity)) as [H _].
    rewrite H. vm_compute. reflexivity.
Defined.

Lemma get_or_int (c : config) k d n :
  c !! k = Some (SInt n) -> get_or c k d = SInt (if n =? 0 then d else n).
Proof. intros H. unfold get_or. rewrite H. simpl. by destruct (n =? 0). Qed.

Lemma get_or_none (c : config) k d :
  c !! k = Some SNone -> get_or c k d = SInt d.
Proof. intros H. unfold get_or. by rewrite H. Qed.

Lemma get_or_absent (c : config) k d :
  c !! k = None -> get_or c k d = SInt d.
Proof.
  intros H. unfold get_or. rewrite H. simpl. by destruct (d =? 0).
Qed.

(** The setting [disk_warning = 0] is an integer between 0 and 100, it is
    stored as that integer, and still the default 80 takes its place. *)
Lemma zero_threshold_replaced :
  let c := get_config (Some {[ "threshold" := [("disk_warning", "0")] ]}) in
  PyStr.int "0" = Some 0
  /\ c !! "disk_warning" = Some (SInt 0)
  /\ DISK_WARNING c = SInt 80
  /\ DISK_WARNING c ≠ SInt 0.
Proof. vm_compute. split_conj; congruence. Qed.

(** C4, amended: for a key that only the numeric sections set, a text that
    is not an integer is stored as [None]; the default takes the place of a
    setting that is [None], absent or zero, and any other integer is used
    as configured. *)
Theorem numeric_setting_or_default (p : ini) (k : string) (d : Z) :
  section_text p "ports" k = None ->
  section_text p "services" k = None ->
  section_text p "disk" k = None ->
  let c := get_config (Some p) in
  match numeric_text p k with
  | None => c !! k = None /\ get_or c k d = SInt d
  | Some text =>
      match PyStr.int (PyStr.strip text) with
      | None => c !! k = Some SNone /\ get_or c k d = SInt d
      | Some n =>
          c !! k = Some (SInt n)
          /\ get_or c k d = SInt (if n =? 0 then d else n)
      end
  end.
Proof.
  intros Hp Hs Hd c.
  assert (c !! k = int_setting <$> numeric_text p k) as Hc.
  { unfold c. by rewrite lookup_get_config, Hp, Hs, Hd. }
  destruct (numeric_text p k) as [text|]; simpl in Hc.
  - unfold int_setting in Hc.
    destruct (PyStr.int (PyStr.strip text)) as [n|].
    + split; [done|]. by apply get_or_int.
    + split; [done|]. by apply get_or_none.
  - split; [done|]. by apply get_or_absent.
Qed.

Lemma numeric_setting_or_default_witness :
  get_config (Some sample_ini) !! "disk_warning" = Some (SInt 85)
  /\ DISK_WARNING (get_config (Some sample_ini)) = SInt 85.
Proof.
  exact (numeric_setting_or_default sample_ini "disk_warning" 80
           eq_refl eq_refl eq_refl).
Defined.

(** ** Probes *)

Lemma for_each_ok {A S} (body : S -> A -> result S) (l : list A) (s : S) :
  (forall s x, x ∈ l -> exists s', body s x = Ok s') ->
  exists s', for_each body s l = Ok s'.
Proof.
  revert s. induction l as [|x l IH]; intros s Hbody; simpl.
  - by exists s.
  - destruct (Hbody s x) as [s' ->]; [left|]. simpl. apply IH.
    intros s0 y Hy. apply Hbody. by right.
Qed.

Lemma forallb_elem_of {A} (f : A -> bool) (l : list A) (x : A) :
  forallb f l = true -> x ∈ l -> f x = true.
Proof.
  intros H Hx. apply list_elem_of_In in Hx.
  by apply (proj1 (forallb_forall f l) H).
Qed.

Lemma to_int_parses s : parses s = true -> exists n, to_int s = Ok n.
Proof.
  unfold parses, to_int. destruct (PyStr.int s) as [n|]; [by exists n|done].
Qed.

Lemma mount_line_ok mount_points line :
  fstab_line_ok line = true -> exists s, mount_line mount_points line = Ok s.
Proof.
  unfold fstab_line_ok, mount_line. intros H.
  destruct (PyStr.is_comment line); [by eexists|]. simpl in H.
  destruct (PyStr.split line) as [|a0 [|a1 [|a2 rest]]];
    cbn -[member] in *; try discriminate H; try by eexists.
  destruct (member a0 ignore_words); [by eexists|].
  destruct (String.eqb a2 "swap"); by eexists.
Qed.

Lemma df_line_returns mount_points exclude results line :
  df_line_ok mount_points exclude line = true ->
  exists r, df_line mount_points exclude results line = Ok r.
Proof.
  unfold df_line_ok, df_line. intros H.
  destruct (PyStr.split line) as [|a0 [|a1 [|a2 [|a3 [|a4 [|a5 rest]]]]]];
    try discriminate H.
  simpl.
  destruct (bool_decide (a5 ∈ mount_points) && negb (bool_decide (a5 ∈ exclude)));
    [|by eexists].
  destruct (to_int_parses _ H) as [n ->]. by eexists.
Qed.

Lemma selected_has_protocol proto :
  member proto ["tcp"; "tcp6"] || member proto ["udp"; "udp6"] = true ->
  is_Some (Proto.from_value proto).
Proof.
  unfold member, Proto.from_value. simpl. rewrite !orb_false_r.
  destruct (String.eqb_spec proto "tcp") as [->|_]; [by eexists|].
  destruct (String.eqb_spec proto "tcp6") as [->|_]; [by eexists|].
  destruct (String.eqb_spec proto "udp") as [->|_]; [by eexists|].
  destruct (String.eqb_spec proto "udp6") as [->|_]; [by eexists|].
  done.
Qed.

Lemma netstat_line_returns listening_ports line :
  netstat_line_ok line = true ->
  exists s, netstat_line listening_ports line = Ok s.
Proof.
  unfold netstat_line_ok, netstat_line, port_ok, index_last. intros H.
  destruct (PyStr.split line) as [|proto [|a1 [|a2 [|a3 rest]]]];
    try discriminate H.
  cbn -[member] in *.
  assert (is_Some (last (PyStr.split_on ":" a3))) as [current_port El].
  { apply last_is_Some. unfold PyStr.split_on.
    by destruct (PyStr.pieces ":" a3). }
  rewrite El in *. cbn -[member] in *.
  assert (forall n, exists s : gset port,
    match Proto.from_value proto with
    | Some pr => Ok (set_add (n, pr) listening_ports)
    | None => Ok listening_ports
    end = Ok s) as Hadd.
  { intros n. destruct (Proto.from_value proto); by eexists. }
  destruct (member proto ["tcp"; "tcp6"]) eqn:Et.
  - destruct rest as [|a4 [|a5 rest]]; try discriminate H.
    cbn -[member] in *.
    destruct (PyStr.startswith "LISTEN" a5); cbn -[member].
    + destruct (to_int_parses _ H) as [n ->]. apply Hadd.
    + destruct (member proto ["udp"; "udp6"]) eqn:Eu; [|by eexists].
      exfalso. revert Et Eu. unfold member. simpl. rewrite !orb_false_r.
      destruct (String.eqb_spec proto "tcp") as [->|_]; [discriminate|].
      destruct (String.eqb_spec proto "tcp6") as [->|_]; discriminate.
  - cbn -[member].
    destruct (member proto ["udp"; "udp6"]); [|by eexists].
    destruct (to_int_parses _ H) as [n ->]. apply Hadd.
Qed.

(** A [df -h] report with a wrapped line, and an empty [netstat] report:
    both probes stop with [IndexError]; a use% column without a number stops
    [get_disk_space] with [ValueError], and a failing [df] with
    [CalledProcessError]. *)
Lemma probes_raise_on_short_lines :
  get_disk_space (Some {["/"; "/home"]}) ∅ wrapped_df = Raise IndexError
  /\ get_listening_ports (Output "") = Raise IndexError
  /\ get_disk_space (Some {["/"]}) ∅ (Output "/dev/sda3 50G 45G - - /")
     = Raise ValueError
  /\ get_disk_space (Some {["/"]}) ∅ Failed = Raise CalledProcessError.
Proof. by vm_compute. Qed.

(** The fstab loop tests for two fields and then reads the third. *)
Example mount_points_two_fields :
  get_mount_points (Some ["/dev/sdb1 /data"]) = Raise IndexError.
Proof. reflexivity. Qed.

(** C2, amended: the three probes return a value when the file or the tool
    is missing, and when every line they read is well formed: for fstab a
    comment or a line with fewer than two or at least three fields; for df
    at least six fields and an integer use% in the reported rows; for
    netstat at least four fields, six for tcp and tcp6, and an integer port
    in the lines that are kept. *)
Theorem probes_return_on_well_formed_input
    (fstab : option (list string)) (mount_points exclude : gset string)
    (df netstat : run) :
  fstab_ok fstab = true ->
  df_ok mount_points exclude df = true ->
  netstat_ok netstat = true ->
  (exists mps, get_mount_points fstab = Ok mps)
  /\ (exists disk_space,
        get_disk_space (Some mount_points) exclude df = Ok disk_space)
  /\ (exists listening_ports, get_listening_ports netstat = Ok listening_ports)
  /\ get_mount_points None = Ok ∅
  /\ get_disk_space (Some mount_points) exclude NotFound = Ok []
  /\ get_disk_space None exclude df = Ok []
  /\ get_listening_ports NotFound = Ok ∅.
Proof.
  intros Hf Hd Hn. split_conj; try reflexivity.
  - destruct fstab as [file_|]; [|by eexists]. simpl in *.
    apply for_each_ok. intros s line Hline. apply mount_line_ok.
    by apply (forallb_elem_of _ file_).
  - destruct df as [out| |]; [|by eexists|discriminate Hd]. simpl in *.
    apply for_each_ok. intros s line Hline. apply df_line_returns.
    by apply (forallb_elem_of _ (lines out)).
  - destruct netstat as [out| |]; [|by eexists|discriminate Hn]. simpl in *.
    apply for_each_ok. intros s line Hline. apply netstat_line_returns.
    by apply (forallb_elem_of _ (lines out)).
Qed.

Lemma probes_return_on_well_formed_input_witness :
  (exists mps, get_mount_points (Some sample_fstab) = Ok mps)
  /\ (exists disk_space,
        get_disk_space (Some {["/"; "/home"]}) {["/boot"]} sample_df
        = Ok disk_space)
  /\ (exists listening_ports,
        get_listening_ports sample_netstat = Ok listening_ports).
Proof.
  destruct (probes_return_on_well_formed_input (Some sample_fstab)
              {["/"; "/home"]} {["/boot"]} sample_df sample_netstat)
    as (H1 & H2 & H3 & _); [vm_compute; reflexivity..|].
  exact (conj H1 (conj H2 H3)).
Defined.

Example sample_probes :
  get_mount_points (Some sample_fstab) = Ok {["/home"]}
  /\ get_disk_space (Some {["/"; "/home"]}) {["/boot"]} sample_df
     = Ok [("/", (95, "2,5G")); ("/home", (50, "100G"))]
  /\ get_listening_ports sample_netstat = Ok {[(22, TCP); (53, UDP)]}.
Proof. by vm_compute. Qed.

(** ** Rounding *)

Lemma bind_Ok {A B} (a : A) (f : A -> result B) : Ok a ≫= f = f a.
Proof. reflexivity. Qed.

Lemma up_nonneg k : 0 <= k -> PyFloat.up k = 2 ^ k.
Proof. intros H. unfold PyFloat.up. by rewrite Z.max_r. Qed.

Lemma up_nonpos k : k <= 0 -> PyFloat.up k = 1.
Proof. intros H. unfold PyFloat.up. by rewrite Z.max_l. Qed.

Lemma rne_spec n d :
  0 <= n -> 0 < d ->
  0 <= PyFloat.rne n d /\ 2 * Z.abs (PyFloat.rne n d * d - n) <= d.
Proof.
  intros Hn Hd. unfold PyFloat.rne.
  pose proof (Z.div_mod n d ltac:(lia)) as Hdm.
  pose proof (Z.mod_pos_bound n d Hd) as Hr.
  pose proof (Z.div_pos n d Hn Hd) as Hq.
  set (q := n / d) in *. set (r := n mod d) in *.
  destruct (Z.ltb_spec (2 * r) d); [nia|].
  destruct (Z.ltb_spec d (2 * r)); [nia|].
  destruct (Z.even q); nia.
Qed.

(** The quotient of two positive integers below 128 has its last place at
    [2^-46] or below. *)
Lemma ilog2_small a b : 0 < a -> 0 < b -> a < 128 * b -> PyFloat.ilog2 a b <= 6.
Proof.
  intros Ha Hb Hab. unfold PyFloat.ilog2.
  destruct (Z.log2_spec a Ha) as [Hla _].
  destruct (Z.log2_spec b Hb) as [_ Hlb].
  pose proof (Z.log2_nonneg a) as Hla0. pose proof (Z.log2_nonneg b) as Hlb0.
  set (la := Z.log2 a) in *. set (lb := Z.log2 b) in *.
  assert (la - lb <= 7) as Hk.
  { destruct (Z.le_gt_cases (la - lb) 7) as [|Hgt]; [done|]. exfalso.
    assert (2 ^ (lb + 8) <= 2 ^ la) by (apply Z.pow_le_mono_r; lia).
    replace (lb + 8) with (lb + 1 + 7) in H by lia.
    rewrite Z.pow_add_r in H by lia.
    change (2 ^ 7) with 128 in H. lia. }
  destruct (Z.leb_spec (b * PyFloat.up (la - lb)) (a * PyFloat.up (- (la - lb))))
    as [Hle|_]; [|lia].
  destruct (Z.eq_dec (la - lb) 7) as [E|]; [|lia].
  rewrite E in Hle. rewrite up_nonneg, up_nonpos in Hle by lia.
  change (2 ^ 7) with 128 in Hle. lia.
Qed.

(** A positive quotient below 128 rounds to a float whose last place is at
    most [2^-46] and which is within half of that place of the quotient. *)
Lemma round_small a b :
  0 < a -> 0 < b -> a < 128 * b ->
  exists m e,
    PyFloat.round a b = PyFloat.Finite m e
    /\ -1074 <= e <= -46
    /\ 0 <= m
    /\ 2 * Z.abs (m * b - a * 2 ^ (- e)) <= b.
Proof.
  intros Ha Hb Hab. unfold PyFloat.round, PyFloat.round_pos.
  rewrite (proj2 (Z.eqb_neq a 0)) by lia.
  rewrite (Z.abs_eq a) by lia.
  pose proof (ilog2_small a b Ha Hb Hab) as Hk.
  set (e := Z.max (PyFloat.ilog2 a b - 52) PyFloat.emin).
  assert (-1074 <= e <= -46) as He by (unfold e, PyFloat.emin; lia).
  rewrite (up_nonneg (- e)), (up_nonpos e) by lia.
  rewrite !Z.mul_1_r.
  assert (0 < 2 ^ (- e)) as HN by (apply Z.pow_pos_nonneg; lia).
  set (N := 2 ^ (- e)) in *.
  destruct (rne_spec (a * N) b ltac:(nia) Hb) as [Hm0 Hm].
  set (m := PyFloat.rne (a * N) b) in *.
  assert (m <= 128 * N) as Hmax by nia.
  assert (2 ^ 7 < 2 ^ 1024) as Hbig by (apply Z.pow_lt_mono_r; lia).
  change (2 ^ 7) with 128 in Hbig.
  destruct (Z.leb_spec (2 ^ 1024 * N) m) as [Hover|_]; [exfalso; nia|].
  exists m, e. rewrite (Z.sgn_pos a), Z.mul_1_l by lia. done.
Qed.

Lemma round_zero b : PyFloat.round 0 b = PyFloat.Finite 0 0.
Proof. reflexivity. Qed.

(** An integer quotient is rounded to itself. *)
Lemma round_exact a b m e :
  0 < b -> 2 * Z.abs (m * b - a * 2 ^ (- e)) <= b ->
  forall n, a = n * b -> m = n * 2 ^ (- e).
Proof.
  intros Hb Hm n ->.
  replace (m * b - n * b * 2 ^ (- e)) with ((m - n * 2 ^ (- e)) * b) in Hm
    by ring.
  rewrite Z.abs_mul, (Z.abs_eq b) in Hm by lia. nia.
Qed.

Lemma truediv_pos a b :
  0 < b -> PyFloat.truediv a b
           = match PyFloat.round a b with
             | PyFloat.Finite m e => Ok (PyFloat.Finite m e)
             | _ => Raise OverflowError
             end.
Proof.
  intros Hb. unfold PyFloat.truediv.
  rewrite (proj2 (Z.eqb_neq b 0)) by lia.
  by rewrite (Z.sgn_pos b), Z.mul_1_r, (Z.abs_eq b) by lia.
Qed.

Lemma of_int_100 :
  PyFloat.of_int 100 = Ok (PyFloat.Finite (100 * 2 ^ 46) (-46)).
Proof. reflexivity. Qed.

(** [100 - q] for a float [q] whose last place is at most [2^-46]: the
    difference is formed exactly and then rounded. *)
Lemma rsub_100 m e :
  e <= -46 ->
  PyFloat.rsub 100 (PyFloat.Finite m e)
  = Ok (PyFloat.round (100 * 2 ^ (- e) - m) (2 ^ (- e))).
Proof.
  intros He. unfold PyFloat.rsub. rewrite of_int_100, bind_Ok.
  unfold PyFloat.sub. rewrite (Z.min_r (-46) e) by lia.
  rewrite Z.sub_diag, Z.pow_0_r, !Z.mul_1_r.
  rewrite up_nonpos, up_nonneg, Z.mul_1_r by lia.
  rewrite <- Z.mul_assoc, <- Z.pow_add_r by lia.
  by replace (46 + (-46 - e)) with (- e) by lia.
Qed.

Lemma rsub_100_zero :
  (d ← PyFloat.rsub 100 (PyFloat.Finite 0 0); PyFloat.to_int d) = Ok 100.
Proof. by vm_compute. Qed.

Lemma to_int_small m e :
  e <= -46 -> PyFloat.to_int (PyFloat.Finite m e) = Ok (Z.quot m (2 ^ (- e))).
Proof.
  intros He. unfold PyFloat.to_int.
  by rewrite (proj2 (Z.leb_gt 0 e)) by lia.
Qed.

(** If [m / N] is closer than [1 / T] to the fraction [D / T], and equal to
    it when that is an integer, both have the same integer part. *)
Lemma quot_close m N D T K E :
  0 < T -> 0 < N -> 0 < K -> 0 <= D ->
  K * Z.abs (m * T - D * N) <= E -> E < K * N ->
  (D mod T = 0 -> m * T = D * N) ->
  m / N = D / T.
Proof.
  intros HT HN HK HD Hclose HE Hexact.
  pose proof (Z.div_mod D T ltac:(lia)) as Hdm.
  pose proof (Z.mod_pos_bound D T HT) as Hr.
  set (n := D / T) in *. set (r := D mod T) in *.
  assert (Z.abs (m * T - D * N) < N) as Habs by nia.
  assert (n * N <= m < (n + 1) * N) as [Hlo Hhi].
  { destruct (Z.eq_dec r 0) as [Hr0|Hr0].
    - specialize (Hexact Hr0). rewrite Hdm, Hr0, Z.add_0_r in Hexact.
      assert (m = n * N) by nia. lia.
    - assert (D * N = n * N * T + r * N) as HDN by (rewrite Hdm; ring).
      assert (N <= r * N) by nia.
      assert (r * N + N <= T * N) by nia.
      split.
      + assert (n * N * T < m * T) by lia. nia.
      + assert (m * T < (n + 1) * N * T) by lia. nia. }
  symmetry. apply (Z.div_unique m N n (m - n * N)); lia.
Qed.

Lemma mul_bounds t x n :
  0 <= t -> - n <= x <= n -> - (t * n) <= t * x <= t * n.
Proof. intros Ht Hx. split; nia. Qed.

Lemma part_perc_exact part total :
  0 < total <= 2 ^ 45 -> 0 <= part <= total ->
  part_perc part total = Ok (Z.quot (100 * part) total).
Proof.
  intros [HT Hmax] [HP0 HPT]. change (2 ^ 45) with 35184372088832 in Hmax.
  unfold part_perc. rewrite truediv_pos by done.
  destruct (Z.eq_dec part 0) as [->|HP].
  { rewrite Z.mul_0_r, round_zero. simpl.
    by rewrite Z.mul_0_l, Z.quot_0_l by lia. }
  destruct (round_small (100 * part) total) as (m & e & -> & He & Hm0 & Hm);
    [lia..|].
  rewrite bind_Ok, to_int_small by lia. f_equal.
  assert (2 ^ 46 <= 2 ^ (- e)) as HN by (apply Z.pow_le_mono_r; lia).
  change (2 ^ 46) with 70368744177664 in HN.
  rewrite !Z.quot_div_nonneg by lia.
  apply (quot_close m (2 ^ (- e)) (100 * part) total 2 total); try lia.
  intros Hmod. apply Z.mod_divide in Hmod as [n Hn]; [|lia].
  rewrite (round_exact _ _ _ _ HT Hm n Hn), Hn. ring.
Qed.

Lemma used_perc_exact free total :
  0 < total <= 2 ^ 45 -> 0 <= free <= total ->
  used_perc free total = Ok (Z.quot (100 * (total - free)) total).
Proof.
  intros [HT Hmax] [HF0 HFT]. change (2 ^ 45) with 35184372088832 in Hmax.
  unfold used_perc. rewrite truediv_pos by done.
  destruct (Z.eq_dec free 0) as [->|HF].
  { rewrite Z.mul_0_r, round_zero, Z.sub_0_r, bind_Ok, rsub_100_zero.
    by rewrite Z.quot_mul by lia. }
  destruct (round_small (100 * free) total) as (m1 & e1 & -> & He1 & Hm10 & Hm1);
    [lia..|].
  rewrite bind_Ok, rsub_100, bind_Ok by lia.
  assert (2 ^ 46 <= 2 ^ (- e1)) as HN1 by (apply Z.pow_le_mono_r; lia).
  change (2 ^ 46) with 70368744177664 in HN1.
  set (N1 := 2 ^ (- e1)) in *.
  destruct (Z.eq_dec free total) as [->|HFT'].
  { rewrite (round_exact _ _ _ _ HT Hm1 100 eq_refl).
    rewrite !Z.sub_diag, round_zero, Z.mul_0_r, Z.quot_0_l by lia.
    reflexivity. }
  assert (0 < 100 * N1 - m1) as Ha2 by nia.
  destruct (round_small (100 * N1 - m1) N1) as (m2 & e2 & -> & He2 & Hm20 & Hm2);
    [lia..|].
  rewrite to_int_small by lia. f_equal.
  assert (2 ^ 46 <= 2 ^ (- e2)) as HN2 by (apply Z.pow_le_mono_r; lia).
  change (2 ^ 46) with 70368744177664 in HN2.
  set (N2 := 2 ^ (- e2)) in *.
  rewrite !Z.quot_div_nonneg by lia.
  apply (quot_close m2 N2 (100 * (total - free)) total (2 * N1)
           (total * (N1 + N2))); try lia.
  - replace (2 * N1 * Z.abs (m2 * total - 100 * (total - free) * N2))
      with (Z.abs (total * (2 * (m2 * N1 - (100 * N1 - m1) * N2))
                   - N2 * (2 * (m1 * total - 100 * free * N1)))).
    2:{ transitivity
          (Z.abs (2 * N1 * (m2 * total - 100 * (total - free) * N2))).
        - f_equal. ring.
        - by rewrite Z.abs_mul, (Z.abs_eq (2 * N1)) by lia. }
    set (X2 := m2 * N1 - (100 * N1 - m1) * N2) in *.
    set (X1 := m1 * total - 100 * free * N1) in *.
    assert (- N1 <= 2 * X2 <= N1) as HX2 by lia.
    assert (- total <= 2 * X1 <= total) as HX1 by lia.
    pose proof (mul_bounds total (2 * X2) N1 ltac:(lia) HX2).
    pose proof (mul_bounds N2 (2 * X1) total ltac:(lia) HX1).
    lia.
  - assert (total * N1 < N2 * N1) by (apply Z.mul_lt_mono_pos_r; lia).
    assert (total * N2 < N1 * N2) by (apply Z.mul_lt_mono_pos_r; lia).
    lia.
  - intros Hmod. apply Z.mod_divide in Hmod as [n Hn]; [|lia].
    assert (100 * free = (100 - n) * total) as Hfree by lia.
    pose proof (round_exact _ _ _ _ HT Hm1 _ Hfree) as ->.
    assert (100 * N1 - (100 - n) * N1 = n * N1) as Ha2' by ring.
    assert (0 < N1) as HN1' by lia.
    pose proof (round_exact _ _ _ _ HN1' Hm2 _ Ha2') as ->.
    fold N2. rewrite Hn. ring.
Qed.

(** The rounding model and the machine agree on sample operands. *)
Example model_agrees_with_hardware :
  Hardware.agree (Hardware.model_used 250 1000) (Hardware.used 250 1000) = true
  /\ Hardware.agree (Hardware.model_used 1 3) (Hardware.used 1 3) = true
  /\ Hardware.agree (Hardware.model_used 123456789 987654321)
       (Hardware.used 123456789 987654321) = true
  /\ Hardware.agree (Hardware.model_used 1 (2 ^ 60)) (Hardware.used 1 (2 ^ 60))
     = true
  /\ Hardware.agree (PyFloat.truediv (100 * 7) 9) (Hardware.part 7 9) = true
  /\ Hardware.agree (PyFloat.truediv (100 * 20) 1000) (Hardware.part 20 1000)
     = true.
Proof. vm_compute. split_conj; reflexivity. Qed.

(** ** Memory percentages *)

(** Where the float arithmetic stops being exact, far above the memory of
    any machine: with a total of [2^60] kB of which 1 kB is free, the
    subtraction rounds to 100.0 and the used percentage is 100, while
    100 * (total - free) / total truncates to 99. *)
Lemma used_perc_rounds_up :
  used_perc 1 (2 ^ 60) = Ok 100
  /\ Z.quot (100 * (2 ^ 60 - 1)) (2 ^ 60) = 99.
Proof. by vm_compute. Qed.

Lemma memory_column_percents t meminfo c rows free total buffers cached :
  meminfo !! "MemFree" = Some free ->
  meminfo !! "MemTotal" = Some total ->
  meminfo !! "Buffers" = Some buffers ->
  meminfo !! "Cached" = Some cached ->
  memory_column t meminfo = Ok (c, rows) ->
  exists mem_perc swap_perc buffers_perc cached_perc reclaimable_perc,
    used_perc free total = Ok mem_perc
    /\ part_perc buffers total = Ok buffers_perc
    /\ part_perc cached total = Ok cached_perc
    /\ (row_percent <$> rows)
       = [VInt mem_perc; swap_perc; VInt buffers_perc; VInt cached_perc;
          reclaimable_perc].
Proof.
  intros HF HT HB HC H. unfold memory_column in H.
  rewrite bool_decide_eq_false_2 in H.
  2:{ intros ->. by rewrite lookup_empty in HF. }
  unfold getitem in H. rewrite HF, HT, HB, HC in H.
  repeat match type of H with
  | Ok _ ≫= _ = _ => rewrite bind_Ok in H
  | add_memory_row _ _ _ _ _ (VInt _) ≫= _ = _ =>
      rewrite add_memory_row_int in H
  | add_memory_row _ _ _ _ _ ?p ≫= _ = _ =>
      destruct p; [|discriminate H]
  | mbind _ ?m = Ok _ =>
      let E := fresh "E" in destruct m eqn:E; [|discriminate H]
  | (let '(_, _) := ?p in _) = _ => destruct p
  end.
  injection H as _ <-.
  eexists _, _, _, _, _. split_conj; reflexivity.
Qed.

(** C9: for a memory snapshot as the kernel reports it, 0 < MemTotal <= 2^45
    kB (32 PiB) and 0 <= MemFree <= MemTotal, the used-memory percentage is
    100 * (MemTotal - MemFree) / MemTotal truncated toward zero, 75 for
    MemTotal = 1000 and MemFree = 250; the buffers and cached percentages
    are 100 * value / MemTotal truncated toward zero; these are the
    percentages of the memory rows. *)
Theorem memory_percentages (free total : Z) :
  0 < total <= 2 ^ 45 -> 0 <= free <= total ->
  used_perc free total = Ok (Z.quot (100 * (total - free)) total)
  /\ (forall part, 0 <= part <= total ->
        part_perc part total = Ok (Z.quot (100 * part) total))
  /\ used_perc 250 1000 = Ok 75
  /\ (forall t meminfo c rows buffers cached,
        meminfo !! "MemFree" = Some free ->
        meminfo !! "MemTotal" = Some total ->
        meminfo !! "Buffers" = Some buffers ->
        meminfo !! "Cached" = Some cached ->
        0 <= buffers <= total -> 0 <= cached <= total ->
        memory_column t meminfo = Ok (c, rows) ->
        exists swap_perc reclaimable_perc,
          (row_percent <$> rows)
          = [ VInt (Z.quot (100 * (total - free)) total);
              swap_perc;
              VInt (Z.quot (100 * buffers) total);
              VInt (Z.quot (100 * cached) total);
              reclaimable_perc ]).
Proof.
  intros HT HF. split_conj.
  - by apply used_perc_exact.
  - intros part HP. by apply part_perc_exact.
  - reflexivity.
  - intros t meminfo c rows buffers cached Hf Ht Hb Hc HB HC H.
    destruct (memory_column_percents _ _ _ _ _ _ _ _ Hf Ht Hb Hc H)
      as (mp & sp & bp & cp & rp & Hmp & Hbp & Hcp & ->).
    rewrite used_perc_exact in Hmp by done.
    rewrite part_perc_exact in Hbp, Hcp by done.
    injection Hmp as <-. injection Hbp as <-. injection Hcp as <-.
    by exists sp, rp.
Qed.

Lemma memory_percentages_witness :
  used_perc 250 1000 = Ok 75
  /\ part_perc 20 1000 = Ok 2
  /\ exists rows,
       memory_column default_thresholds sample_meminfo = Ok (orange, rows)
       /\ (row_percent <$> rows) <> [].
Proof.
  assert (0 < 1000 <= 2 ^ 45) as HT
    by (split; [reflexivity | vm_compute; discriminate]).
  assert (0 <= 250 <= 1000) as HF by lia.
  destruct (memory_percentages 250 1000 HT HF) as (H1 & H2 & _ & H4).
  split; [exact H1|]. split; [exact (H2 20 ltac:(lia))|].
  assert (exists rows,
    memory_column default_thresholds sample_meminfo = Ok (orange, rows))
    as [rows Hrows] by (eexists; vm_compute; reflexivity).
  exists rows. split; [exact Hrows|].
  destruct (H4 default_thresholds sample_meminfo orange rows 10 20
              ltac:(vm_compute; reflexivity) ltac:(vm_compute; reflexivity)
              ltac:(vm_compute; reflexivity) ltac:(vm_compute; reflexivity)
              ltac:(lia) ltac:(lia) Hrows)
    as (sp & rp & ->).
  discriminate.
Defined.

(** ** A snapshot without swap space *)

(** Whatever the other counters and the thresholds are, the memory column is
    not produced when [SwapTotal] is zero: the placeholder reaches a
    comparison with an int. *)
Lemma zero_swap_never_classified t meminfo :
  meminfo !! "SwapTotal" = Some 0 -> is_ok (memory_column t meminfo) = false.
Proof.
  intros Hs. unfold memory_column.
  rewrite bool_decide_eq_false_2.
  2:{ intros ->. by rewrite lookup_empty in Hs. }
  assert (swap_cells meminfo = Ok (VStr "---", VStr "---")) as ->.
  { unfold swap_cells, getitem. by rewrite Hs. }
  repeat match goal with
  | |- is_ok (Ok _ ≫= _) = false => rewrite bind_Ok
  | |- is_ok (add_memory_row _ _ _ _ _ (VStr _) ≫= _) = false => reflexivity
  | |- is_ok (add_memory_row _ _ _ _ _ (VInt _) ≫= _) = false =>
      rewrite add_memory_row_int
  | |- is_ok (mbind _ ?m) = false =>
      let E := fresh "E" in destruct m eqn:E; [|reflexivity]
  end.
Qed.

(** C1: with [SwapTotal = 0] the swap cells hold the placeholder and no
    division by zero occurs, but the comparison of the placeholder with the
    swap thresholds raises [TypeError], so neither the status nor the rows
    are produced. *)
Theorem zero_swap_raises :
  swap_cells zero_swap_meminfo = Ok (VStr "---", VStr "---")
  /\ memory_status default_thresholds 50 (VStr "---") 1 2 = Raise TypeError
  /\ add_memory_row [] 10 20 "Swap" (VStr "---") (VStr "---") = Raise TypeError
  /\ memory_column default_thresholds zero_swap_meminfo = Raise TypeError
  /\ memory_column (Thresholds 80 90 10 20)
       (<["MemFree" := 50]> zero_swap_meminfo) = Raise TypeError.
Proof. by vm_compute. Qed.
(** * Further properties *)

(** ** Classification *)

(** X1: a larger value never gets a milder colour, whatever the thresholds;
    and when the critical threshold does not exceed the warning threshold no
    value is classified as warning. *)
Theorem classification_monotone (warn crit v1 v2 : Z) :
  (v1 <= v2 ->
     (rank (partition_color warn crit v1) <= rank (partition_color warn crit v2))%nat)
  /\ (crit <= warn -> partition_color warn crit v1 ≠ orange).
Proof.
  unfold partition_color. split.
  - intros Hv.
    destruct (Z.leb_spec crit v1), (Z.leb_spec warn v1),
      (Z.leb_spec crit v2), (Z.leb_spec warn v2); simpl; lia.
  - intros Hc.
    destruct (Z.leb_spec crit v1), (Z.leb_spec warn v1); try done; lia.
Qed.

Lemma classification_monotone_witness :
  (rank (partition_color 80 90 85) <= rank (partition_color 80 90 95))%nat
  /\ partition_color 90 80 85 ≠ orange.
Proof.
  destruct (classification_monotone 80 90 85 95) as [H1 _].
  destruct (classification_monotone 90 80 85 85) as [_ H2].
  split; [apply H1; lia | apply H2; lia].
Defined.

(** ** The disk heading *)

Lemma worst_of_red (l : list color) : worst_of l = red <-> red ∈ l.
Proof.
  induction l as [|c l IH]; simpl.
  - split; [discriminate|by intros ?%elem_of_nil].
  - rewrite elem_of_cons, <- IH.
    destruct c, (worst_of l); simpl; split; intros; try done; auto;
      by destruct H.
Qed.

Lemma worst_of_green (l : list color) :
  worst_of l = green <-> Forall (fun c => c = green) l.
Proof.
  induction l as [|c l IH]; simpl.
  - split; [constructor|done].
  - rewrite Forall_cons, <- IH.
    destruct c, (worst_of l); simpl; split; intros; try done; by destruct H.
Qed.

Lemma disk_status_color_worst warn crit (ds : list (string * usage)) :
  disk_status_color warn crit ds
  = worst_of ((fun e => partition_color warn crit e.2.1) <$> ds).
Proof.
  unfold disk_status_color. rewrite disk_status_fold.
  by destruct (worst_of _).
Qed.

(** X2: the disk heading is red exactly when some reported mount point has
    reached the critical threshold, and green exactly when every one is
    below both thresholds. *)
Theorem disk_status_red_green (warn crit : Z)
    (disk_space : list (string * usage)) :
  (disk_status_color warn crit disk_space = red
     <-> exists e, e ∈ disk_space /\ crit <= e.2.1)
  /\ (disk_status_color warn crit disk_space = green
     <-> forall e, e ∈ disk_space -> e.2.1 < crit /\ e.2.1 < warn).
Proof.
  rewrite disk_status_color_worst. split.
  - rewrite worst_of_red, list_elem_of_fmap. split.
    + intros (e & He & Hin). exists e. split; [done|].
      symmetry in He. by apply partition_color_red in He.
    + intros (e & Hin & He). exists e. split; [|done].
      symmetry. by apply partition_color_red.
  - rewrite worst_of_green, Forall_fmap, Forall_forall. split.
    + intros H e He. apply partition_color_green. by apply H.
    + intros H e He. apply partition_color_green. by apply H.
Qed.

(** ** The memory heading *)

Lemma memory_status_int (t : thresholds)
    (mem_perc swap_perc buffers_perc cached_perc : Z) :
  memory_status t mem_perc (VInt swap_perc) buffers_perc cached_perc
  = Ok (worst_of
      [ partition_color (mem_warning t) (mem_critical t) mem_perc;
        partition_color (swap_warning t) (swap_critical t) swap_perc;
        partition_color (mem_warning t) (mem_critical t) buffers_perc;
        partition_color (mem_warning t) (mem_critical t) cached_perc ]).
Proof.
  unfold memory_status, partition_color, or_else, ge. simpl.
  destruct (mem_critical t <=? mem_perc), (swap_critical t <=? swap_perc),
    (mem_critical t <=? buffers_perc), (mem_critical t <=? cached_perc),
    (mem_warning t <=? mem_perc), (swap_warning t <=? swap_perc),
    (mem_warning t <=? buffers_perc), (mem_warning t <=? cached_perc);
    reflexivity.
Qed.

(** X3: when the swap percentage is a number, the memory heading carries
    the worst of four classifications: memory, buffers and cached against
    the memory thresholds and swap against the swap thresholds. *)
Theorem memory_status_is_worst (t : thresholds)
    (mem_perc swap_perc buffers_perc cached_perc : Z) :
  memory_status t mem_perc (VInt swap_perc) buffers_perc cached_perc
  = Ok (worst_of
      [ partition_color (mem_warning t) (mem_critical t) mem_perc;
        partition_color (swap_warning t) (swap_critical t) swap_perc;
        partition_color (mem_warning t) (mem_critical t) buffers_perc;
        partition_color (mem_warning t) (mem_critical t) cached_perc ]).
Proof. apply memory_status_int. Qed.

Lemma bind_Raise {A B} (e : exn) (f : A -> result B) : Raise e ≫= f = Raise e.
Proof. reflexivity. Qed.

Lemma used_perc_zero_total free : used_perc free 0 = Raise ZeroDivisionError.
Proof. reflexivity. Qed.

(** The first computation a chain of binds waits for. *)
Ltac scrutinee t :=
  lazymatch t with
  | mbind _ ?m => scrutinee m
  | _ => t
  end.

(** Runs a chain of binds in [H : chain = Ok _]: finished steps are passed
    to their continuation, a raised exception ends the goal, and the
    outcome of any other step is split in two. *)
Ltac run_binds H :=
  repeat match type of H with
  | Raise _ = Ok _ => discriminate H
  | _ => progress cbv beta iota in H
  | context [Ok _ ≫= _] => rewrite bind_Ok in H
  | context [Raise _ ≫= _] => rewrite bind_Raise in H
  | context [add_memory_row _ _ _ _ _ (VInt _)] =>
      rewrite add_memory_row_int in H
  | context [add_memory_row _ _ _ _ _ (VStr _)] =>
      rewrite add_memory_row_str in H
  | ?lhs = Ok _ =>
      let m := scrutinee lhs in
      lazymatch m with
      | Ok _ => fail
      | Raise _ => fail
      | if ?b then _ else _ => destruct b eqn:?
      | match ?x with Some _ => _ | None => _ end => destruct x eqn:?
      | _ => destruct m eqn:?
      end
  end.

(** X4: the memory column is produced only for a snapshot that holds the
    six counters it reads, with nonzero totals of memory and swap (and the
    free swap counter); an empty snapshot gives a green heading without
    rows. *)
Theorem memory_column_needs (t : thresholds) (meminfo : gmap string Z)
    (c : color) (rows : list row) :
  memory_column t meminfo = Ok (c, rows) ->
  (meminfo = ∅ /\ c = green /\ rows = [])
  \/ (exists mem_free mem_total swap_free swap_total buffers cached reclaimable,
        meminfo !! "MemFree" = Some mem_free
        /\ meminfo !! "MemTotal" = Some mem_total /\ mem_total ≠ 0
        /\ meminfo !! "SwapFree" = Some swap_free
        /\ meminfo !! "SwapTotal" = Some swap_total /\ swap_total ≠ 0
        /\ meminfo !! "Buffers" = Some buffers
        /\ meminfo !! "Cached" = Some cached
        /\ meminfo !! "SReclaimable" = Some reclaimable
        /\ length rows = 5%nat).
Proof.
  intros H. unfold memory_column in H.
  destruct (bool_decide (meminfo = ∅)) eqn:Hempty.
  { left. apply bool_decide_eq_true in Hempty. by injection H as <- <-. }
  right. unfold swap_cells, getitem in H.
  run_binds H. injection H as _ <-.
  repeat match goal with
  | E : used_perc _ ?total = Ok _ |- _ =>
      lazymatch goal with
      | _ : total ≠ 0 |- _ => fail
      | _ => assert (total ≠ 0)
               by (intros Hz; rewrite Hz, used_perc_zero_total in E;
                   discriminate E)
      end
  end.
  match goal with
  | _ : meminfo !! "MemFree" = Some ?mf,
    _ : meminfo !! "MemTotal" = Some ?mt,
    _ : meminfo !! "SwapFree" = Some ?sf,
    _ : meminfo !! "SwapTotal" = Some ?st,
    _ : meminfo !! "Buffers" = Some ?b,
    _ : meminfo !! "Cached" = Some ?ca,
    _ : meminfo !! "SReclaimable" = Some ?r |- _ =>
      exists mf, mt, sf, st, b, ca, r
  end.
  split_conj; try assumption; reflexivity.
Qed.

Lemma memory_column_needs_witness :
  exists rows mem_total swap_total,
    memory_column default_thresholds sample_meminfo = Ok (orange, rows)
    /\ sample_meminfo !! "MemTotal" = Some mem_total /\ mem_total ≠ 0
    /\ sample_meminfo !! "SwapTotal" = Some swap_total /\ swap_total ≠ 0.
Proof.
  assert (exists rows,
    memory_column default_thresholds sample_meminfo = Ok (orange, rows))
    as [rows Hrows] by (eexists; vm_compute; reflexivity).
  destruct (memory_column_needs default_thresholds sample_meminfo orange rows
              Hrows)
    as [[He _]|(mf & mt & sf & st & b & ca & r
                & _ & Hmt & Hmt0 & _ & Hst & Hst0 & _)].
  - destruct (sample_meminfo_nonempty He).
  - exists rows, mt, st. split_conj; assumption.
Defined.

(** ** Services and ports *)

Lemma lines_nonempty out : lines out ≠ [].
Proof.
  unfold lines, PyStr.split_on.
  by destruct (PyStr.pieces "010" (PyStr.strip out)).
Qed.

Lemma service_state_true (r : run) :
  service_state r = true <-> exists out, r = Output out.
Proof.
  destruct r as [out| |]; simpl.
  - split; [by exists out|]. intros _.
    pose proof (lines_nonempty out). by destruct (lines out).
  - split; [done|]. by intros [out Hout].
  - split; [done|]. by intros [out Hout].
Qed.

(** X5: a monitored service is reported as running exactly when its
    [pgrep] call exits with status zero, whatever it printed; the test on
    the number of output lines never fails, because splitting always gives
    at least one line. *)
Theorem service_running_iff_exit_zero (services_to_monitor : gset string)
    (pgrep : string -> run) (arg : gset string) (s : string) :
  (get_checked_services services_to_monitor pgrep (Some arg) !! s = Some true
     <-> s ∈ services_to_monitor /\ exists out, pgrep s = Output out)
  /\ (get_checked_services services_to_monitor pgrep (Some arg) !! s
        = Some false
     <-> s ∈ services_to_monitor /\ (pgrep s = NotFound \/ pgrep s = Failed))
  /\ (forall out, service_state (Output out) = true).
Proof.
  unfold get_checked_services.
  rewrite (lookup_set_fold_insert (fun s => service_state (pgrep s))).
  rewrite lookup_empty. split_conj.
  - destruct (decide (s ∈ services_to_monitor)) as [Hs|Hs].
    + rewrite <- service_state_true. split.
      * by intros [= ->].
      * by intros [_ ->].
    + split; [done|tauto].
  - destruct (decide (s ∈ services_to_monitor)) as [Hs|Hs].
    + split.
      * intros [= Hf]. split; [done|]. destruct (pgrep s) as [out| |]; auto.
        assert (service_state (Output out) = true) as Ht
          by (apply service_state_true; eauto).
        congruence.
      * intros [_ [-> | ->]]; reflexivity.
    + split; [done|tauto].
  - intros out. apply service_state_true. eauto.
Qed.

Lemma all_values_true `{Countable K} (d : gmap K bool) :
  all_values d = true <-> forall k b, d !! k = Some b -> b = true.
Proof.
  unfold all_values. rewrite forallb_forall. split.
  - intros Hall k b Hk. apply (Hall b).
    apply list_elem_of_In, list_elem_of_fmap. exists (k, b).
    split; [done|]. by apply elem_of_map_to_list.
  - intros Hd b Hb.
    apply list_elem_of_In, list_elem_of_fmap in Hb as ([k b'] & -> & Hkb).
    apply elem_of_map_to_list in Hkb. by apply (Hd k).
Qed.

(** X6: the services heading is green exactly when every monitored port is
    in the observed listening set and the [pgrep] call of every monitored
    service exits with status zero; otherwise it is red. *)
Theorem services_heading_green (monitored observed : gset port)
    (netstat : run) (services_to_monitor arg : gset string)
    (pgrep : string -> run) (checked_ports : gmap port bool) :
  get_listening_ports netstat = Ok observed ->
  get_checked_ports (Some monitored) netstat = Ok checked_ports ->
  let heading :=
    services_ports_status_color checked_ports
      (get_checked_services services_to_monitor pgrep (Some arg)) in
  (heading = green
     <-> monitored ⊆ observed
         /\ forall s, s ∈ services_to_monitor -> exists out, pgrep s = Output out)
  /\ (heading = green \/ heading = red).
Proof.
  intros HL Hc heading. unfold get_checked_ports in Hc.
  rewrite HL, bind_Ok in Hc. injection Hc as <-.
  assert (forall A B : bool,
    (if A && B then green else red) = green <-> A = true /\ B = true) as Hif.
  { intros [] []; simpl; intuition discriminate. }
  split.
  - unfold heading, services_ports_status_color.
    rewrite Hif, !all_values_true. split.
    + intros [Hp Hs]. split.
      * intros p Hp'. specialize (Hp p (bool_decide (p ∈ observed))).
        rewrite lookup_checked_ports, decide_True in Hp by done.
        by apply (bool_decide_eq_true_1 (p ∈ observed)), Hp.
      * intros s Hs'. apply service_state_true. apply (Hs s).
        unfold get_checked_services.
        rewrite (lookup_set_fold_insert (fun s => service_state (pgrep s))).
        by rewrite decide_True.
    + intros [Hsub Hs]. split.
      * intros p b. rewrite lookup_checked_ports.
        destruct (decide (p ∈ monitored)) as [Hp|Hp]; [|done].
        intros [= <-]. apply bool_decide_eq_true_2. by apply Hsub.
      * intros s b. unfold get_checked_services.
        rewrite (lookup_set_fold_insert (fun s => service_state (pgrep s))).
        rewrite lookup_empty.
        destruct (decide (s ∈ services_to_monitor)) as [Hs'|Hs']; [|done].
        intros [= <-]. apply service_state_true. by apply Hs.
  - unfold heading, services_ports_status_color.
    destruct (_ && _); auto.
Qed.

Lemma services_heading_green_witness :
  exists checked_ports,
    get_checked_ports (Some {[(22, TCP)]}) sample_netstat = Ok checked_ports
    /\ services_ports_status_color checked_ports
         (get_checked_services {["sshd"]} sample_pgrep (Some ∅)) = green.
Proof.
  assert (get_listening_ports sample_netstat = Ok {[(22, TCP); (53, UDP)]})
    as HL by (vm_compute; reflexivity).
  assert (exists checked_ports,
    get_checked_ports (Some {[(22, TCP)]}) sample_netstat = Ok checked_ports)
    as [checked_ports Hc]
    by (unfold get_checked_ports; rewrite HL; eexists; reflexivity).
  destruct (services_heading_green {[(22, TCP)]} {[(22, TCP); (53, UDP)]}
              sample_netstat {["sshd"]} ∅ sample_pgrep checked_ports HL Hc)
    as [Hg _].
  exists checked_ports. split; [exact Hc|]. apply Hg. split.
  - intros p Hp. apply elem_of_singleton in Hp. subst p.
    by apply elem_of_union_l, elem_of_singleton.
  - intros s Hs. apply elem_of_singleton in Hs. subst s.
    by exists "812
".
Defined.

(** ** Mount points *)

Lemma member_true x l : member x l = true <-> x ∈ l.
Proof.
  unfold member. rewrite existsb_exists, list_elem_of_In. split.
  - intros (y & Hy & Heq). apply String.eqb_eq in Heq. by subst y.
  - intros Hx. exists x. split; [done|apply String.eqb_refl].
Qed.

Lemma member_false x l : member x l = false <-> x ∉ l.
Proof. rewrite <- member_true. by destruct (member x l). Qed.

Lemma mount_line_cases (mount_points : gset string) (line : string) :
  mount_line mount_points line
  = if fstab_bad line then Raise IndexError
    else Ok (match fstab_entry line with
             | Some mp => set_add mp mount_points
             | None => mount_points
             end).
Proof.
  unfold mount_line, fstab_bad, fstab_entry.
  destruct (PyStr.is_comment line); [done|].
  destruct (PyStr.split line) as [|a0 [|a1 [|a2 rest]]];
    cbn -[member]; try done.
  - by destruct (member a0 ignore_words).
  - destruct (member a0 ignore_words); [done|]. cbn.
    by destruct (String.eqb a2 "swap").
Qed.

Lemma for_each_mount_line (file_ : list string) (s : gset string) :
  for_each mount_line s file_
  = if existsb fstab_bad file_ then Raise IndexError
    else Ok (list_to_set (omap fstab_entry file_) ∪ s).
Proof.
  revert s. induction file_ as [|line file_ IH]; intros s; simpl.
  - f_equal. by rewrite (left_id_L ∅ (∪)).
  - rewrite mount_line_cases.
    destruct (fstab_bad line); [done|]. rewrite bind_Ok, IH. simpl.
    destruct (existsb fstab_bad file_); [done|]. f_equal.
    destruct (fstab_entry line) as [mp|]; simpl; [|done].
    unfold set_add. apply set_eq. intros x.
    rewrite !elem_of_union. tauto.
Qed.

(** X7: [get_mount_points] raises [IndexError] exactly when some line that
    is not a comment has exactly two fields and a device outside the ignore
    list; otherwise it returns the second fields of the lines that are not
    comments, have at least three fields, a device outside the ignore list
    and a third field other than [swap]. *)
Theorem mount_points_characterised (file_ : list string) :
  get_mount_points (Some file_)
  = (if existsb fstab_bad file_ then Raise IndexError
     else Ok (list_to_set (omap fstab_entry file_)))
  /\ (forall mps mp, get_mount_points (Some file_) = Ok mps ->
        (mp ∈ mps <->
         exists line a0 a2 rest,
           line ∈ file_ /\ PyStr.is_comment line = false
           /\ PyStr.split line = a0 :: mp :: a2 :: rest
           /\ (a0 ∉ ignore_words) /\ a2 ≠ "swap")).
Proof.
  assert (get_mount_points (Some file_)
    = if existsb fstab_bad file_ then Raise IndexError
      else Ok (list_to_set (omap fstab_entry file_))) as Heq.
  { unfold get_mount_points. rewrite for_each_mount_line.
    by rewrite (right_id_L ∅ (∪)). }
  split; [exact Heq|]. intros mps mp Hok. rewrite Heq in Hok.
  destruct (existsb fstab_bad file_); [discriminate Hok|].
  injection Hok as <-.
  rewrite elem_of_list_to_set, list_elem_of_omap. split.
  - intros (line & Hline & He). unfold fstab_entry in He.
    destruct (PyStr.is_comment line) eqn:Hc; [discriminate He|].
    destruct (PyStr.split line) as [|a0 [|a1 [|a2 rest]]] eqn:Hs;
      try discriminate He.
    destruct (member a0 ignore_words) eqn:Hm; [discriminate He|].
    destruct (String.eqb_spec a2 "swap") as [|Hsw]; [discriminate He|].
    injection He as ->. exists line, a0, a2, rest. split_conj; try done.
    by apply member_false.
  - intros (line & a0 & a2 & rest & Hline & Hc & Hs & Ha0 & Ha2).
    exists line. split; [done|]. unfold fstab_entry. rewrite Hc, Hs.
    rewrite (proj2 (member_false a0 ignore_words)) by done.
    simpl. by rewrite (proj2 (String.eqb_neq a2 "swap")).
Qed.

(** ** Disk space *)

Lemma for_each_invariant {A S} (P : S -> Prop) (body : S -> A -> result S)
    (l : list A) (s s' : S) :
  P s ->
  (forall s x s', x ∈ l -> P s -> body s x = Ok s' -> P s') ->
  for_each body s l = Ok s' -> P s'.
Proof.
  revert s. induction l as [|x l IH]; intros s Hs Hbody H; simpl in H.
  - by injection H as <-.
  - destruct (body s x) as [s1|] eqn:E; [|discriminate H].
    rewrite bind_Ok in H. apply (IH s1); [| |done].
    + apply (Hbody s x); [left|done..].
    + intros s0 y s0' Hy. apply Hbody. by right.
Qed.

Lemma elem_of_dict_set {V} (k : string) (v : V) (d : list (string * V)) e :
  e ∈ dict_set k v d -> e = (k, v) \/ e ∈ d.
Proof.
  induction d as [|[k' v'] d IH]; simpl.
  - intros ?%list_elem_of_singleton. by left.
  - destruct (String.eqb_spec k' k) as [->|Hne].
    + intros [->|He]%elem_of_cons; [by left|]. right. by right.
    + intros [->|He]%elem_of_cons; [right; left|].
      destruct (IH He) as [->|Hd]; [by left|]. right. by right.
Qed.

Lemma dict_set_keys {V} (k : string) (v : V) (d : list (string * V)) :
  (dict_set k v d).*1 = if decide (k ∈ d.*1) then d.*1 else (d.*1 ++ [k])%list.
Proof.
  induction d as [|[k' v'] d IH].
  - destruct (decide (k ∈ ([] : list (string * V)).*1)) as [Hk|Hk]; [|done].
    by apply elem_of_nil in Hk.
  - cbn [dict_set]. destruct (String.eqb_spec k' k) as [->|Hne].
    + destruct (decide (k ∈ ((k, v') :: d).*1)) as [Hk|Hk]; [done|].
      destruct Hk. left.
    + rewrite fmap_cons, IH. cbn [fst].
      destruct (decide (k ∈ d.*1)) as [Hk|Hk],
        (decide (k ∈ ((k', v') :: d).*1)) as [Hk'|Hk']; try done.
      * destruct Hk'. by right.
      * apply elem_of_cons in Hk' as [Hk'|Hk']; simpl in Hk'; [congruence|done].
Qed.

Lemma dict_set_NoDup {V} (k : string) (v : V) (d : list (string * V)) :
  NoDup d.*1 -> NoDup (dict_set k v d).*1.
Proof.
  intros Hd. rewrite dict_set_keys.
  destruct (decide (k ∈ d.*1)) as [Hk|Hk]; [done|].
  apply NoDup_app. split_conj; [done| |apply NoDup_singleton].
  intros x Hx ?%list_elem_of_singleton. by subst x.
Qed.

(** After an assignment the key holds the assigned value. *)
Lemma dict_set_lookup {V} (k : string) (v : V) (d : list (string * V)) :
  (k, v) ∈ dict_set k v d.
Proof.
  induction d as [|[k' v'] d IH]; simpl; [left|].
  destruct (String.eqb_spec k' k) as [->|Hne]; [left|by right].
Qed.

Lemma df_line_cases mount_points exclude results line results' :
  df_line mount_points exclude results line = Ok results' ->
  results' = results
  \/ exists f0 f1 f2 avail a4 k rest use,
       PyStr.split line = f0 :: f1 :: f2 :: avail :: a4 :: k :: rest
       /\ k ∈ mount_points /\ (k ∉ exclude)
       /\ PyStr.int (PyStr.drop_last a4) = Some use
       /\ results' = dict_set k (use, avail) results.
Proof.
  unfold df_line. intros H.
  destruct (PyStr.split line) as [|f0 [|f1 [|f2 [|avail [|a4 [|k rest]]]]]];
    try discriminate H.
  cbn in H.
  destruct (bool_decide (k ∈ mount_points)) eqn:Hk; simpl in H;
    [|left; by injection H].
  destruct (bool_decide (k ∈ exclude)) eqn:He; simpl in H;
    [left; by injection H|].
  unfold to_int in H.
  destruct (PyStr.int (PyStr.drop_last a4)) as [use|] eqn:Hu;
    [|discriminate H].
  rewrite bind_Ok in H. injection H as <-. right.
  exists f0, f1, f2, avail, a4, k, rest, use. split_conj; try done.
  - by apply bool_decide_eq_true in Hk.
  - by apply bool_decide_eq_false in He.
Qed.

(** X8: [get_disk_space] reports each mount point at most once, only mount
    points that are asked for and not excluded, and each reported
    [(use%, available)] pair is read from one line of the [df] report
    (sixth, fifth without its last character, and fourth field). *)
Theorem disk_space_reports (mount_points exclude : gset string) (df : run)
    (disk_space : list (string * usage)) :
  get_disk_space (Some mount_points) exclude df = Ok disk_space ->
  NoDup disk_space.*1
  /\ (forall k use avail, (k, (use, avail)) ∈ disk_space ->
        k ∈ mount_points /\ (k ∉ exclude)
        /\ exists out line f0 f1 f2 a4 rest,
             df = Output out /\ line ∈ lines out
             /\ PyStr.split line = f0 :: f1 :: f2 :: avail :: a4 :: k :: rest
             /\ PyStr.int (PyStr.drop_last a4) = Some use).
Proof.
  unfold get_disk_space. destruct df as [out| |]; [| |discriminate].
  2:{ intros [= <-]. split; [constructor|]. by intros k u a ?%elem_of_nil. }
  apply (for_each_invariant (fun ds : list (string * usage) =>
    NoDup ds.*1
    /\ forall k use avail, (k, (use, avail)) ∈ ds ->
         k ∈ mount_points /\ (k ∉ exclude)
         /\ exists out' line f0 f1 f2 a4 rest,
              Output out = Output out' /\ line ∈ lines out'
              /\ PyStr.split line = f0 :: f1 :: f2 :: avail :: a4 :: k :: rest
              /\ PyStr.int (PyStr.drop_last a4) = Some use)).
  - split; [constructor|]. by intros k u a ?%elem_of_nil.
  - intros ds line ds' Hline [Hnd Hds] Hbody.
    destruct (df_line_cases _ _ _ _ _ Hbody)
      as [->|(f0 & f1 & f2 & avail & a4 & k & rest & use
              & Hs & Hk & He & Hu & ->)]; [done|].
    split; [by apply dict_set_NoDup|].
    intros k' use' avail' [[= -> -> ->]|Hin]%elem_of_dict_set.
    + split_conj; [done..|]. by exists out, line, f0, f1, f2, a4, rest.
    + by apply Hds.
Qed.

Lemma disk_space_reports_witness :
  exists disk_space,
    get_disk_space (Some {["/"; "/home"]}) {["/boot"]} sample_df
      = Ok disk_space
    /\ NoDup disk_space.*1.
Proof.
  assert (exists disk_space,
    get_disk_space (Some {["/"; "/home"]}) {["/boot"]} sample_df
      = Ok disk_space) as [ds Hds] by (eexists; vm_compute; reflexivity).
  exists ds. split; [exact Hds|].
  exact (proj1 (disk_space_reports _ _ _ _ Hds)).
Defined.

(** ** Listening ports *)

Lemma for_each_member {A S} (R : S -> S -> Prop) (body : S -> A -> result S)
    (l : list A) (s s' : S) (x : A) :
  (forall s, R s s) -> (forall a b c, R a b -> R b c -> R a c) ->
  (forall s y s', body s y = Ok s' -> R s s') ->
  for_each body s l = Ok s' -> x ∈ l ->
  exists s1 s2, body s1 x = Ok s2 /\ R s2 s'.
Proof.
  intros Hrefl Htrans Hstep. revert s.
  induction l as [|y l IH]; intros s H Hx; [by apply elem_of_nil in Hx|].
  simpl in H. destruct (body s y) as [s1|] eqn:E; [|discriminate H].
  rewrite bind_Ok in H. apply elem_of_cons in Hx as [->|Hx].
  - exists s, s1. split; [done|]. clear E IH. revert s1 H.
    induction l as [|z l IH]; intros s1 H; simpl in H.
    + injection H as <-. apply Hrefl.
    + destruct (body s1 z) as [s2|] eqn:E; [|discriminate H].
      rewrite bind_Ok in H. apply (Htrans _ s2); [by apply (Hstep _ z)|].
      by apply IH.
  - by apply (IH s1).
Qed.

Lemma keep_port (s s' : gset port) (proto : string) (n : Z) :
  match Proto.from_value proto with
  | Some pr => Ok (set_add (n, pr) s)
  | None => Ok s
  end = Ok s' ->
  s' = s \/ exists pr, Proto.value pr = proto /\ s' = set_add (n, pr) s.
Proof.
  destruct (Proto.from_value proto) as [pr|] eqn:Hpr; intros [= <-];
    [|by left].
  right. exists pr. split; [|done].
  unfold Proto.from_value in Hpr. apply find_some in Hpr as [_ Hpr].
  by apply String.eqb_eq in Hpr.
Qed.

Lemma udp_member (pr : Protocol) :
  member (Proto.value pr) ["udp"; "udp6"] = true -> pr = UDP \/ pr = UDP6.
Proof. destruct pr; intros H; try discriminate H; auto. Qed.

Lemma netstat_line_cases (s s' : gset port) (line : string) :
  netstat_line s line = Ok s' ->
  s' = s
  \/ exists proto f1 f2 a3 rest current_port n pr,
       PyStr.split line = proto :: f1 :: f2 :: a3 :: rest
       /\ Proto.value pr = proto
       /\ last (PyStr.split_on ":" a3) = Some current_port
       /\ PyStr.int current_port = Some n
       /\ (pr = UDP \/ pr = UDP6
           \/ exists f4 a5 rest',
                rest = f4 :: a5 :: rest'
                /\ PyStr.startswith "LISTEN" a5 = true)
       /\ s' = set_add (n, pr) s.
Proof.
  unfold netstat_line, index_last, to_int. intros H.
  destruct (PyStr.split line) as [|proto [|f1 [|f2 [|a3 rest]]]];
    try discriminate H.
  cbn -[member Proto.from_value] in H.
  destruct (last (PyStr.split_on ":" a3)) as [cp|] eqn:Hcp;
    [|discriminate H].
  rewrite bind_Ok in H.
  destruct (member proto ["tcp"; "tcp6"]) eqn:Ht.
  - destruct rest as [|f4 [|a5 rest']]; try discriminate H.
    cbn -[member Proto.from_value] in H.
    destruct (PyStr.startswith "LISTEN" a5) eqn:Hl;
      cbn -[member Proto.from_value] in H.
    + destruct (PyStr.int cp) as [n|] eqn:Hn; [|discriminate H].
      rewrite bind_Ok in H.
      destruct (keep_port _ _ _ _ H) as [->|(pr & Hpr & ->)]; [by left|].
      right. exists proto, f1, f2, a3, (f4 :: a5 :: rest'), cp, n, pr.
      split_conj; try done. right. right. by exists f4, a5, rest'.
    + destruct (member proto ["udp"; "udp6"]) eqn:Hu;
        [|left; by injection H].
      destruct (PyStr.int cp) as [n|] eqn:Hn; [|discriminate H].
      rewrite bind_Ok in H.
      destruct (keep_port _ _ _ _ H) as [->|(pr & Hpr & ->)]; [by left|].
      right. exists proto, f1, f2, a3, (f4 :: a5 :: rest'), cp, n, pr.
      split_conj; try done. subst proto.
      destruct (udp_member pr Hu); auto.
  - cbn -[member Proto.from_value] in H.
    destruct (member proto ["udp"; "udp6"]) eqn:Hu; [|left; by injection H].
    destruct (PyStr.int cp) as [n|] eqn:Hn; [|discriminate H].
    rewrite bind_Ok in H.
    destruct (keep_port _ _ _ _ H) as [->|(pr & Hpr & ->)]; [by left|].
    right. exists proto, f1, f2, a3, rest, cp, n, pr.
    split_conj; try done. subst proto.
    destruct (udp_member pr Hu); auto.
Qed.

Lemma netstat_line_grows (s s' : gset port) (line : string) :
  netstat_line s line = Ok s' -> s ⊆ s'.
Proof.
  intros H. destruct (netstat_line_cases _ _ _ H)
    as [->|(? & ? & ? & ? & ? & ? & n & pr & _ & _ & _ & _ & _ & ->)];
    [done|].
  unfold set_add. apply union_subseteq_r.
Qed.

Lemma netstat_line_keeps (s : gset port) (line f1 f2 a3 : string)
    (rest : list string) (current_port : string) (n : Z) (pr : Protocol) :
  PyStr.split line = Proto.value pr :: f1 :: f2 :: a3 :: rest ->
  last (PyStr.split_on ":" a3) = Some current_port ->
  PyStr.int current_port = Some n ->
  (pr = UDP \/ pr = UDP6
   \/ exists f4 a5 rest',
        rest = f4 :: a5 :: rest' /\ PyStr.startswith "LISTEN" a5 = true) ->
  netstat_line s line = Ok (set_add (n, pr) s).
Proof.
  intros Hs Hcp Hn Hwhy. unfold netstat_line, index_last, to_int.
  rewrite Hs. cbn -[member Proto.from_value]. rewrite Hcp, bind_Ok.
  assert (Proto.from_value (Proto.value pr) = Some pr) as Hpr
    by by destruct pr.
  destruct Hwhy as [->|[->|(f4 & a5 & rest' & -> & Hl)]].
  - cbn -[PyStr.int]. by rewrite Hn.
  - cbn -[PyStr.int]. by rewrite Hn.
  - destruct (member (Proto.value pr) ["tcp"; "tcp6"]) eqn:Ht.
    + cbn -[member Proto.from_value]. rewrite Hl.
      cbn -[member Proto.from_value]. by rewrite Hn, bind_Ok, Hpr.
    + cbn -[member Proto.from_value].
      assert (member (Proto.value pr) ["udp"; "udp6"] = true) as ->
        by (destruct pr; try discriminate Ht; reflexivity).
      by rewrite Hn, bind_Ok, Hpr.
Qed.

(** X9: when [get_listening_ports] returns, a pair (port, protocol) is in
    its result exactly when some line of the report has that protocol as
    first field and that port after the last colon of its fourth field,
    and either the protocol is udp or udp6 or the sixth field begins with
    LISTEN. *)
Theorem listening_ports_characterised (out : string) (listening : gset port) :
  get_listening_ports (Output out) = Ok listening ->
  forall n pr,
    (n, pr) ∈ listening
    <-> exists line f1 f2 a3 rest current_port,
          line ∈ lines out
          /\ PyStr.split line = Proto.value pr :: f1 :: f2 :: a3 :: rest
          /\ last (PyStr.split_on ":" a3) = Some current_port
          /\ PyStr.int current_port = Some n
          /\ (pr = UDP \/ pr = UDP6
              \/ exists f4 a5 rest',
                   rest = f4 :: a5 :: rest'
                   /\ PyStr.startswith "LISTEN" a5 = true).
Proof.
  unfold get_listening_ports. intros H n pr. split.
  - revert n pr.
    apply (for_each_invariant (fun s : gset port => forall n pr,
      (n, pr) ∈ s ->
      exists line f1 f2 a3 rest current_port,
        line ∈ lines out
        /\ PyStr.split line = Proto.value pr :: f1 :: f2 :: a3 :: rest
        /\ last (PyStr.split_on ":" a3) = Some current_port
        /\ PyStr.int current_port = Some n
        /\ (pr = UDP \/ pr = UDP6
            \/ exists f4 a5 rest',
                 rest = f4 :: a5 :: rest'
                 /\ PyStr.startswith "LISTEN" a5 = true))
      netstat_line (lines out) ∅ listening); [|  |exact H].
    + intros n pr Hin. by apply not_elem_of_empty in Hin.
    + intros s line s' Hline Hs Hbody n pr Hin.
      destruct (netstat_line_cases _ _ _ Hbody)
        as [->|(proto & f1 & f2 & a3 & rest & cp & n' & pr'
                & Hsp & Hv & Hcp & Hn & Hwhy & ->)]; [by apply Hs|].
      unfold set_add in Hin.
      apply elem_of_union in Hin as [Hin|Hin]; [|by apply Hs].
      apply elem_of_singleton in Hin. injection Hin as -> ->.
      exists line, f1, f2, a3, rest, cp. subst proto. by split_conj.
  - intros (line & f1 & f2 & a3 & rest & cp & Hline & Hs & Hcp & Hn & Hwhy).
    destruct (for_each_member (⊆) netstat_line (lines out) ∅ listening line)
      as (s1 & s2 & Hbody & Hsub); try done.
    + intros a b c Hab Hbc. by transitivity b.
    + intros s y s'. apply netstat_line_grows.
    + rewrite (netstat_line_keeps s1 line f1 f2 a3 rest cp n pr) in Hbody
        by done.
      injection Hbody as <-. apply Hsub. unfold set_add.
      by apply elem_of_union_l, elem_of_singleton.
Qed.

Lemma listening_ports_characterised_witness :
  (22, TCP) ∈ ({[(22, TCP); (53, UDP)]} : gset port)
  /\ get_listening_ports sample_netstat = Ok {[(22, TCP); (53, UDP)]}.
Proof.
  assert (get_listening_ports sample_netstat = Ok {[(22, TCP); (53, UDP)]})
    as HL by (vm_compute; reflexivity).
  split; [|exact HL].
  apply (listening_ports_characterised _ _ HL 22 TCP).
  exists "tcp        0      0 0.0.0.0:22              0.0.0.0:*               LISTEN      812/sshd",
    "0", "0", "0.0.0.0:22", ["0.0.0.0:*"; "LISTEN"; "812/sshd"], "22".
  split_conj; try (vm_compute; reflexivity).
  - apply list_elem_of_In. vm_compute. auto.
  - right. right. by exists "0.0.0.0:*", "LISTEN", ["812/sshd"].
Defined.

(** ** Configuration *)

(** X10: the sections are read in the order display, threshold, disk,
    services, ports, and a later section overwrites an earlier one: a key
    holds the value of the last of these sections that sets it, parsed as
    that section parses (ints set, names set, or int), and is absent when no
    section sets it. *)
Theorem config_section_precedence (p : ini) (k : string) :
  (forall text, section_text p "ports" k = Some text ->
     get_config (Some p) !! k = Some (ints_setting text))
  /\ (section_text p "ports" k = None ->
      forall text, section_text p "services" k = Some text ->
        get_config (Some p) !! k = Some (names_setting text))
  /\ (section_text p "ports" k = None -> section_text p "services" k = None ->
      forall text, section_text p "disk" k = Some text ->
        get_config (Some p) !! k = Some (names_setting text))
  /\ (section_text p "ports" k = None -> section_text p "services" k = None ->
      section_text p "disk" k = None ->
      forall text, section_text p "threshold" k = Some text ->
        get_config (Some p) !! k = Some (int_setting text))
  /\ (section_text p "ports" k = None -> section_text p "services" k = None ->
      section_text p "disk" k = None -> section_text p "threshold" k = None ->
      get_config (Some p) !! k = int_setting <$> section_text p "display" k)
  /\ (k ∈ dom (get_config (Some p))
      <-> exists s, s ∈ ["display"; "threshold"; "disk"; "services"; "ports"]
                    /\ is_Some (section_text p s k)).
Proof.
  rewrite elem_of_dom, lookup_get_config. unfold numeric_text.
  split_conj.
  - by intros text ->.
  - by intros -> text ->.
  - by intros -> -> text ->.
  - by intros -> -> -> text ->.
  - by intros -> -> -> ->.
  - split.
    + intros Hsome.
      destruct (section_text p "ports" k) eqn:E1;
        [exists "ports"; rewrite E1; split; [apply list_elem_of_In; simpl; auto 10|by eexists]|].
      destruct (section_text p "services" k) eqn:E2;
        [exists "services"; rewrite E2; split; [apply list_elem_of_In; simpl; auto 10|by eexists]|].
      destruct (section_text p "disk" k) eqn:E3;
        [exists "disk"; rewrite E3; split; [apply list_elem_of_In; simpl; auto 10|by eexists]|].
      destruct (section_text p "threshold" k) eqn:E4;
        [exists "threshold"; rewrite E4; split; [apply list_elem_of_In; simpl; auto 10|by eexists]|].
      destruct (section_text p "display" k) eqn:E5;
        [exists "display"; rewrite E5; split; [apply list_elem_of_In; simpl; auto 10|by eexists]|].
      by destruct Hsome.
    + intros (s & Hs & [text Hk]).
      rewrite !elem_of_cons, elem_of_nil in Hs.
      destruct (section_text p "ports" k) eqn:E1; [by eexists|].
      destruct (section_text p "services" k) eqn:E2; [by eexists|].
      destruct (section_text p "disk" k) eqn:E3; [by eexists|].
      destruct (section_text p "threshold" k) eqn:E4; [by eexists|].
      destruct (section_text p "display" k) eqn:E5; [by eexists|].
      destruct Hs as [->|[->|[->|[->|[->|[]]]]]]; congruence.
Qed.

Lemma config_section_precedence_witness :
  get_config (Some override_ini) !! "tcp_ports_to_monitor"
  = Some (SInts {[22; 80; 443]}).
Proof.
  destruct (config_section_precedence override_ini "tcp_ports_to_monitor")
    as [H _].
  rewrite (H "22, 80,,443 " ltac:(vm_compute; reflexivity)).
  vm_compute. reflexivity.
Defined.

(** X11: a key of the services section, or of the disk section, that the
    ports section does not set holds the set of the comma-separated pieces
    of its text, each stripped of surrounding white space, without the empty
    ones. *)
Theorem names_setting_members (p : ini) (k text : string) :
  section_text p "ports" k = None ->
  section_text p "services" k = Some text
  \/ (section_text p "services" k = None
      /\ section_text p "disk" k = Some text) ->
  exists names : gset string,
    get_config (Some p) !! k = Some (SNames names)
    /\ forall name,
         name ∈ names
         <-> name ≠ ""
             /\ exists piece, piece ∈ PyStr.split_on "," text
                              /\ name = PyStr.strip piece.
Proof.
  intros Hp Hsd. exists (list_to_set (tokens text)). split.
  - rewrite lookup_get_config, Hp.
    destruct Hsd as [->|[-> ->]]; reflexivity.
  - intros name. rewrite elem_of_list_to_set, elem_of_tokens.
    rewrite list_elem_of_fmap. split.
    + intros [Hne (piece & -> & Hpiece)]. split; [done|]. by exists piece.
    + intros [Hne (piece & Hpiece & ->)]. split; [done|]. by exists piece.
Qed.

Lemma names_setting_members_witness :
  exists names : gset string,
    get_config (Some services_ini) !! "services_to_monitor"
      = Some (SNames names)
    /\ ("nginx" ∈ names) /\ ("" ∉ names).
Proof.
  destruct (names_setting_members services_ini
              "services_to_monitor" "sshd, nginx,,cron "
              ltac:(vm_compute; reflexivity)
              ltac:(left; vm_compute; reflexivity)) as (names & Hc & Hn).
  exists names. split; [exact Hc|]. split.
  - apply Hn. split; [discriminate|]. exists " nginx".
    split; [|reflexivity]. apply list_elem_of_In. vm_compute. auto.
  - intros Hin. apply Hn in Hin as [Hne _]. by apply Hne.
Defined.

(** X12: a threshold or display limit whose key only the numeric sections
    can set is always a nonzero integer: the configured integer when the
    configuration holds a nonzero one, and the default when the key is
    absent, holds [None] or holds zero. *)
Theorem threshold_is_nonzero_int (p : ini) (k : string) (d : Z) :
  d ≠ 0 ->
  section_text p "ports" k = None ->
  section_text p "services" k = None ->
  section_text p "disk" k = None ->
  exists n,
    get_or (get_config (Some p)) k d = SInt n /\ n ≠ 0
    /\ match get_config (Some p) !! k with
       | Some (SInt m) => n = if m =? 0 then d else m
       | Some SNone | None => n = d
       | Some (SNames _) | Some (SInts _) => False
       end.
Proof.
  intros Hd Hp Hs Hdk.
  assert (get_config (Some p) !! k = int_setting <$> numeric_text p k) as Hc
    by by rewrite lookup_get_config, Hp, Hs, Hdk.
  unfold get_or. rewrite Hc.
  destruct (numeric_text p k) as [text|]; simpl.
  - unfold int_setting.
    destruct (PyStr.int (PyStr.strip text)) as [n|]; simpl.
    + destruct (Z.eqb_spec n 0) as [->|Hn]; simpl.
      * by exists d.
      * by exists n.
    + by exists d.
  - destruct (Z.eqb_spec d 0); [done|]. by exists d.
Qed.

Lemma threshold_is_nonzero_int_witness :
  DISK_WARNING (get_config (Some sample_ini)) = SInt 85
  /\ DISK_CRITICAL (get_config (Some sample_ini)) = SInt 90.
Proof.
  destruct (threshold_is_nonzero_int sample_ini "disk_warning" 80
              ltac:(discriminate) ltac:(vm_compute; reflexivity)
              ltac:(vm_compute; reflexivity) ltac:(vm_compute; reflexivity))
    as (n & Hn & _ & Hv).
  destruct (threshold_is_nonzero_int sample_ini "disk_critical" 90
              ltac:(discriminate) ltac:(vm_compute; reflexivity)
              ltac:(vm_compute; reflexivity) ltac:(vm_compute; reflexivity))
    as (n' & Hn' & _ & Hv').
  assert (get_config (Some sample_ini) !! "disk_warning" = Some (SInt 85))
    as Hw by (vm_compute; reflexivity).
  assert (get_config (Some sample_ini) !! "disk_critical" = Some SNone)
    as Hc by (vm_compute; reflexivity).
  rewrite Hw in Hv. rewrite Hc in Hv'. simpl in Hv. subst n n'.
  split; [exact Hn|exact Hn'].
Defined.

(** ** Megabytes and the whole memory column *)

Lemma ilog2_upper a b j :
  0 < a -> 0 < b -> 0 <= j -> a < 2 ^ j * b -> PyFloat.ilog2 a b < j.
Proof.
  intros Ha Hb Hj Hab. unfold PyFloat.ilog2.
  destruct (Z.log2_spec a Ha) as [Hla _].
  destruct (Z.log2_spec b Hb) as [_ Hlb].
  pose proof (Z.log2_nonneg a) as Hla0. pose proof (Z.log2_nonneg b) as Hlb0.
  set (la := Z.log2 a) in *. set (lb := Z.log2 b) in *.
  assert (0 < 2 ^ j) as Hpj by (apply Z.pow_pos_nonneg; lia).
  assert (la - lb <= j) as Hk.
  { destruct (Z.le_gt_cases (la - lb) j) as [|Hgt]; [done|]. exfalso.
    assert (2 ^ (lb + 1 + j) <= 2 ^ la) as Hpow
      by (apply Z.pow_le_mono_r; lia).
    rewrite Z.pow_add_r in Hpow by lia.
    assert (2 ^ j * b < 2 ^ j * 2 ^ (lb + 1))
      by (apply Z.mul_lt_mono_pos_l; lia).
    lia. }
  destruct (Z.leb_spec (b * PyFloat.up (la - lb)) (a * PyFloat.up (- (la - lb))))
    as [Hle|_]; [|lia].
  destruct (Z.eq_dec (la - lb) j) as [E|]; [|lia].
  rewrite E in Hle. rewrite up_nonneg, up_nonpos in Hle by lia. lia.
Qed.

Lemma rne_exact q d : 0 <= q -> 0 < d -> PyFloat.rne (q * d) d = q.
Proof.
  intros Hq Hd. destruct (rne_spec (q * d) d ltac:(nia) Hd) as [_ H].
  replace (PyFloat.rne (q * d) d * d - q * d)
    with ((PyFloat.rne (q * d) d - q) * d) in H by ring.
  rewrite Z.abs_mul, (Z.abs_eq d) in H by lia. nia.
Qed.

Lemma megabytes_exact kb :
  0 <= kb < 2 ^ 53 -> megabytes kb = Ok (kb / 1024).
Proof.
  intros [H0 Hmax]. unfold megabytes.
  rewrite truediv_pos by lia.
  destruct (Z.eq_dec kb 0) as [->|Hkb]; [reflexivity|].
  unfold PyFloat.round, PyFloat.round_pos.
  rewrite (proj2 (Z.eqb_neq kb 0)), (Z.abs_eq kb) by lia.
  assert (PyFloat.ilog2 kb 1024 < 43) as Hk.
  { apply ilog2_upper; lia. }
  set (e := Z.max (PyFloat.ilog2 kb 1024 - 52) PyFloat.emin).
  assert (-1074 <= e <= -10) as He by (unfold e, PyFloat.emin; lia).
  rewrite (up_nonneg (- e)), (up_nonpos e), !Z.mul_1_r by lia.
  replace (- e) with (- e - 10 + 10) by lia.
  rewrite Z.pow_add_r by lia. change (2 ^ 10) with 1024.
  assert (0 < 2 ^ (- e - 10)) as HN by (apply Z.pow_pos_nonneg; lia).
  set (N := 2 ^ (- e - 10)) in *.
  rewrite (Z.mul_assoc kb N 1024), rne_exact by nia.
  assert (2 ^ 53 < 2 ^ 1024) as Hbig by (apply Z.pow_lt_mono_r; lia).
  destruct (Z.leb_spec (2 ^ 1024 * (N * 1024)) (kb * N)) as [Hover|_];
    [exfalso; nia|].
  rewrite (Z.sgn_pos kb), Z.mul_1_l, bind_Ok by lia.
  unfold PyFloat.to_int. rewrite (proj2 (Z.leb_gt 0 e)) by lia. f_equal.
  replace (- e) with (- e - 10 + 10) by lia.
  rewrite Z.pow_add_r by lia. change (2 ^ 10) with 1024. fold N.
  rewrite Z.quot_div_nonneg by nia.
  rewrite (Z.mul_comm N 1024). apply Z.div_mul_cancel_r; lia.
Qed.

(** X13: the megabyte figures are exact: for a counter of 0 to 2^53 - 1 kB
    the float division by 1024 followed by [int] gives the integer quotient
    by 1024. *)
Theorem megabytes_is_quotient (kb : Z) :
  0 <= kb < 2 ^ 53 ->
  megabytes kb = Ok (kb / 1024) /\ 0 <= kb / 1024 <= kb.
Proof.
  intros H. split; [by apply megabytes_exact|].
  split; [apply Z.div_pos; lia|].
  apply Z.div_le_upper_bound; lia.
Qed.

Lemma megabytes_is_quotient_witness : megabytes 1536000 = Ok 1500.
Proof.
  exact (proj1 (megabytes_is_quotient 1536000
                  ltac:(split; [discriminate | reflexivity]))).
Defined.

(** X14: on a snapshot that holds the seven counters, with totals of memory
    and swap between 1 and 2^45 kB and every other counter between 0 and its
    total, the memory column is produced: its heading is the worst of the
    four classifications, and its five rows carry the exact megabytes and
    truncated percentages, each with the colour of its own thresholds. *)
Theorem memory_column_on_snapshot (t : thresholds) (meminfo : gmap string Z)
    (mem_free mem_total swap_free swap_total buffers cached reclaimable : Z) :
  meminfo !! "MemFree" = Some mem_free ->
  meminfo !! "MemTotal" = Some mem_total ->
  meminfo !! "SwapFree" = Some swap_free ->
  meminfo !! "SwapTotal" = Some swap_total ->
  meminfo !! "Buffers" = Some buffers ->
  meminfo !! "Cached" = Some cached ->
  meminfo !! "SReclaimable" = Some reclaimable ->
  0 < mem_total <= 2 ^ 45 -> 0 <= mem_free <= mem_total ->
  0 < swap_total <= 2 ^ 45 -> 0 <= swap_free <= swap_total ->
  0 <= buffers <= mem_total -> 0 <= cached <= mem_total ->
  0 <= reclaimable <= mem_total ->
  let mem_perc := Z.quot (100 * (mem_total - mem_free)) mem_total in
  let swap_perc := Z.quot (100 * (swap_total - swap_free)) swap_total in
  let buffers_perc := Z.quot (100 * buffers) mem_total in
  let cached_perc := Z.quot (100 * cached) mem_total in
  let reclaimable_perc := Z.quot (100 * reclaimable) mem_total in
  let mem_color := partition_color (mem_warning t) (mem_critical t) in
  let swap_color := partition_color (swap_warning t) (swap_critical t) in
  memory_column t meminfo
  = Ok (worst_of [ mem_color mem_perc; swap_color swap_perc;
                   mem_color buffers_perc; mem_color cached_perc ],
        [ Row (mem_color mem_perc) "Memory"
            (VInt ((mem_total - mem_free) / 1024)) (VInt mem_perc);
          Row (swap_color swap_perc) "Swap"
            (VInt ((swap_total - swap_free) / 1024)) (VInt swap_perc);
          Row (mem_color buffers_perc) "Buffers"
            (VInt (buffers / 1024)) (VInt buffers_perc);
          Row (mem_color cached_perc) "Cached"
            (VInt (cached / 1024)) (VInt cached_perc);
          Row (mem_color reclaimable_perc) "Reclaimable"
            (VInt (reclaimable / 1024)) (VInt reclaimable_perc) ]).
Proof.
  intros Hmf Hmt Hsf Hst Hb Hc Hr HT HF HST HSF HB HC HR.
  assert (2 ^ 45 < 2 ^ 53) as Hpow by (apply Z.pow_lt_mono_r; lia).
  unfold memory_column.
  rewrite bool_decide_eq_false_2.
  2:{ intros ->. by rewrite lookup_empty in Hmt. }
  unfold swap_cells, getitem. rewrite Hmf, Hmt, Hsf, Hst, Hb, Hc, Hr.
  repeat first
    [ rewrite bind_Ok
    | rewrite (proj2 (Z.eqb_neq swap_total 0)) by lia
    | rewrite used_perc_exact by lia
    | rewrite part_perc_exact by lia
    | rewrite megabytes_exact by lia
    | rewrite memory_status_int
    | rewrite add_memory_row_int
    | progress cbv beta iota ].
  reflexivity.
Qed.

Lemma memory_column_on_snapshot_witness :
  exists rows,
    memory_column default_thresholds sample_meminfo = Ok (orange, rows)
    /\ (row_percent <$> rows) = [VInt 75; VInt 15; VInt 1; VInt 2; VInt 0].
Proof.
  eexists. split.
  - rewrite (memory_column_on_snapshot default_thresholds sample_meminfo
               250 1000 85 100 10 20 5);
      try (vm_compute; reflexivity); try lia;
      try (split; [reflexivity | vm_compute; discriminate]).
  - reflexivity.
Defined.

(** X15: a snapshot that is not empty but lacks [MemFree] or [MemTotal]
    stops the memory column with [KeyError], and a [MemTotal] of zero stops
    it with [ZeroDivisionError]. *)
Theorem memory_column_errors (t : thresholds) (meminfo : gmap string Z) :
  (meminfo ≠ ∅ -> meminfo !! "MemFree" = None ->
     memory_column t meminfo = Raise KeyError)
  /\ (is_Some (meminfo !! "MemFree") -> meminfo !! "MemTotal" = None ->
      memory_column t meminfo = Raise KeyError)
  /\ (is_Some (meminfo !! "MemFree") -> meminfo !! "MemTotal" = Some 0 ->
      memory_column t meminfo = Raise ZeroDivisionError).
Proof.
  unfold memory_column, getitem. split_conj.
  - intros Hne Hf. rewrite bool_decide_eq_false_2 by done. by rewrite Hf.
  - intros [f Hf] Ht. rewrite bool_decide_eq_false_2.
    2:{ intros ->. by rewrite lookup_empty in Hf. }
    by rewrite Hf, Ht.
  - intros [f Hf] Ht. rewrite bool_decide_eq_false_2.
    2:{ intros ->. by rewrite lookup_empty in Hf. }
    by rewrite Hf, Ht, !bind_Ok, used_perc_zero_total.
Qed.

Lemma memory_column_errors_witness :
  memory_column default_thresholds (<["MemTotal" := 0]> sample_meminfo)
  = Raise ZeroDivisionError.
Proof.
  apply (memory_column_errors default_thresholds
           (<["MemTotal" := 0]> sample_meminfo)).
  - exists 250. vm_compute. reflexivity.
  - vm_compute. reflexivity.
Defined.

(** ** Memory counters *)

Lemma for_each_fails {A S} (body : S -> A -> result S) (l : list A) (s : S)
    (x : A) :
  x ∈ l -> (forall s, is_ok (body s x) = false) ->
  is_ok (for_each body s l) = false.
Proof.
  intros Hx Hfail. revert s.
  induction l as [|y l IH]; intros s; [by apply elem_of_nil in Hx|].
  simpl. apply elem_of_cons in Hx as [->|Hx].
  - specialize (Hfail s). by destruct (body s y).
  - destruct (body s y); [rewrite bind_Ok; by apply IH|done].
Qed.

Lemma meminfo_line_cases (meminfo meminfo' : gmap string Z) (line : string) :
  meminfo_line meminfo line = Ok meminfo' ->
  exists key size,
    PyStr.strip <$> PyStr.split_on ":" line = [key; size]
    /\ (meminfo' = meminfo
        \/ exists first rest n,
             key ∈ meminfo_keys
             /\ PyStr.split size = first :: rest
             /\ PyStr.int first = Some n
             /\ meminfo' = <[key := n]> meminfo).
Proof.
  unfold meminfo_line, to_int. intros H.
  destruct (PyStr.strip <$> PyStr.split_on ":" line)
    as [|key [|size [|x l]]]; try discriminate H.
  exists key, size. split; [done|].
  destruct (member key meminfo_keys) eqn:Hk; [|left; by injection H].
  destruct (PyStr.split size) as [|first rest]; [discriminate H|].
  cbn -[PyStr.int] in H.
  destruct (PyStr.int first) as [n|] eqn:Hn; [|discriminate H].
  rewrite bind_Ok in H. injection H as <-. right.
  exists first, rest, n. split_conj; try done. by apply member_true.
Qed.

(** X16: when [get_meminfo] returns, it holds only keys among the seven
    counters, and each value is the integer that starts the text after the
    colon of some line with that key; it does not return when some line
    does not have exactly one colon; a missing file gives the empty
    dictionary. *)
Theorem meminfo_characterised (file_ : list string) :
  (forall meminfo, get_meminfo (Some file_) = Ok meminfo ->
     forall key n, meminfo !! key = Some n ->
       key ∈ meminfo_keys
       /\ exists line size first rest,
            line ∈ file_
            /\ PyStr.strip <$> PyStr.split_on ":" line = [key; size]
            /\ PyStr.split size = first :: rest
            /\ PyStr.int first = Some n)
  /\ ((exists line, line ∈ file_
                    /\ length (PyStr.split_on ":" line) ≠ 2%nat) ->
      is_ok (get_meminfo (Some file_)) = false)
  /\ get_meminfo None = Ok ∅.
Proof.
  split_conj; [| |reflexivity].
  - intros meminfo H. unfold get_meminfo in H. revert H.
    apply (for_each_invariant (fun m : gmap string Z =>
      forall key n, m !! key = Some n ->
        key ∈ meminfo_keys
        /\ exists line size first rest,
             line ∈ file_
             /\ PyStr.strip <$> PyStr.split_on ":" line = [key; size]
             /\ PyStr.split size = first :: rest
             /\ PyStr.int first = Some n)).
    + intros key n Hk. by rewrite lookup_empty in Hk.
    + intros m line m' Hline Hm Hbody key n Hk.
      destruct (meminfo_line_cases _ _ _ Hbody)
        as (key' & size & Hsp & [->|(first & rest & n' & Hin & Hf & Hn & ->)]);
        [by apply Hm|].
      destruct (decide (key' = key)) as [->|Hne].
      * rewrite lookup_insert_eq in Hk. injection Hk as ->.
        split; [done|]. by exists line, size, first, rest.
      * rewrite lookup_insert_ne in Hk by done. by apply Hm.
  - intros (line & Hline & Hlen). unfold get_meminfo.
    apply (for_each_fails _ _ _ line Hline). intros m.
    unfold meminfo_line.
    destruct (PyStr.split_on ":" line) as [|a [|b [|c l]]]; try done.
Qed.

(** ** Users, default route and address *)

Lemma foldl_who_line (ls : list string) (s : gset string) (u : string) :
  u ∈ foldl who_line s ls
  <-> u ∈ s \/ exists line, line ∈ ls /\ head (PyStr.split line) = Some u.
Proof.
  revert s. induction ls as [|line ls IH]; intros s; simpl.
  - split; [by left|]. intros [Hs|(l & Hl & _)]; [done|].
    by apply elem_of_nil in Hl.
  - rewrite IH. unfold who_line. split.
    + intros [Hs|(l & Hl & Hu)].
      * destruct (PyStr.split line) as [|a0 rest] eqn:E; [by left|].
        unfold set_add in Hs.
        apply elem_of_union in Hs as [->%elem_of_singleton|Hs]; [|by left].
        right. exists line. split; [left|]. by rewrite E.
      * right. exists l. split; [by right|done].
    + intros [Hs|(l & [->|Hl]%elem_of_cons & Hu)].
      * left. destruct (PyStr.split line); [done|].
        unfold set_add. by apply elem_of_union_r.
      * left. destruct (PyStr.split line) as [|a0 rest]; [done|].
        injection Hu as ->. unfold set_add.
        by apply elem_of_union_l, elem_of_singleton.
      * right. by exists l.
Qed.

(** X17: [get_users] returns the set of the first words of the lines of the
    [who] report that are not blank; a missing tool gives the empty set. *)
Theorem users_are_first_words (out : string) :
  (exists users,
     get_users (Output out) = Ok users
     /\ forall u, u ∈ users
          <-> exists line, line ∈ lines out
                           /\ head (PyStr.split line) = Some u)
  /\ get_users NotFound = Ok ∅.
Proof.
  split; [|reflexivity]. eexists. split; [reflexivity|].
  intros u. rewrite foldl_who_line. split.
  - intros [Hin|H]; [by apply not_elem_of_empty in Hin|done].
  - by right.
Qed.

(** X18: [get_default_iface] returns the first field of the first line
    whose second field is [00000000], provided every line before it has a
    second field; it returns [None] when every line has a second field and
    none is [00000000], and for a missing table. *)
Theorem default_iface_is_first_default_route (file_ : list string) :
  (forall iface,
     get_default_iface (Some file_) = Ok (Some iface)
     <-> exists before line after,
           file_ = (before ++ line :: after)%list
           /\ Forall (fun l => exists w1, PyStr.split l !! 1%nat = Some w1
                                          /\ w1 ≠ "00000000") before
           /\ PyStr.split line !! 1%nat = Some "00000000"
           /\ PyStr.split line !! 0%nat = Some iface)
  /\ (get_default_iface (Some file_) = Ok None
      <-> Forall (fun l => exists w1, PyStr.split l !! 1%nat = Some w1
                                      /\ w1 ≠ "00000000") file_)
  /\ get_default_iface None = Ok None.
Proof.
  split_conj; [| |reflexivity]; simpl.
  - induction file_ as [|l ls IH]; intros iface; simpl.
    + split; [discriminate|]. intros (b & line & a & Hf & _).
      by destruct b.
    + unfold index. destruct (PyStr.split l !! 1%nat) as [w1|] eqn:E1; simpl.
      * destruct (String.eqb_spec w1 "00000000") as [->|Hne].
        -- destruct (PyStr.split l !! 0%nat) as [w0|] eqn:E0; simpl.
           ++ split.
              ** intros [= ->]. by exists [], l, ls.
              ** intros ([|l' b] & line & a & Hf & Hb & H1 & H0).
                 --- injection Hf as -> ->. congruence.
                 --- injection Hf as -> ->. apply Forall_cons in Hb as [(w & Hw & Hne) _].
                     congruence.
           ++ destruct (PyStr.split l) as [|x [|y r]]; discriminate.
        -- rewrite IH. split.
           ++ intros (b & line & a & -> & Hb & H1 & H0).
              exists (l :: b), line, a. split_conj; try done.
              apply Forall_cons. split; [by exists w1|done].
           ++ intros ([|l' b] & line & a & Hf & Hb & H1 & H0).
              ** injection Hf as -> ->. congruence.
              ** injection Hf as -> ->. apply Forall_cons in Hb as [_ Hb].
                 by exists b, line, a.
      * split; [discriminate|].
        intros ([|l' b] & line & a & Hf & Hb & H1 & H0).
        -- injection Hf as -> ->. congruence.
        -- injection Hf as -> ->.
           apply Forall_cons in Hb as [(w & Hw & _) _]. congruence.
  - induction file_ as [|l ls IH]; simpl.
    + split; [constructor|done].
    + unfold index. destruct (PyStr.split l !! 1%nat) as [w1|] eqn:E1; simpl.
      * destruct (String.eqb_spec w1 "00000000") as [->|Hne].
        -- split.
           ++ destruct (PyStr.split l !! 0%nat); discriminate.
           ++ intros [(w & Hw & Hne) _]%Forall_cons. congruence.
        -- rewrite IH, Forall_cons. split; [|tauto].
           intros H. split; [by exists w1|done].
      * split; [discriminate|].
        intros [(w & Hw & _) _]%Forall_cons. congruence.
Qed.

Lemma after_src_spec (last_word : string) (words : list string) (addr : string) :
  after_src last_word words = Some addr ->
  exists i, (last_word :: words) !! i = Some "src"
            /\ (last_word :: words) !! S i = Some addr.
Proof.
  revert last_word. induction words as [|w ws IH]; intros lw H; simpl in H;
    [discriminate|].
  destruct (String.eqb lw "src") eqn:E.
  - apply String.eqb_eq in E. injection H as <-. subst lw. by exists 0%nat.
  - destruct (IH w H) as (i & Hi & Hi'). by exists (S i).
Qed.

(** X19: [get_ip] returns either the text [Unknown address] or a word
    that follows the word [src] in a line of the routing report; without
    an interface, or without the tool, it returns [Unknown address]. *)
Theorem ip_follows_src (dev : string) (ip_route : string -> run) :
  (forall addr, get_ip (Some dev) ip_route = Ok addr ->
     addr = UNKNOWN_ADDRESS
     \/ exists out line i,
          ip_route dev = Output out /\ line ∈ lines out
          /\ PyStr.split line !! i = Some "src"
          /\ PyStr.split line !! S i = Some addr)
  /\ get_ip None ip_route = Ok UNKNOWN_ADDRESS
  /\ (ip_route dev = NotFound -> get_ip (Some dev) ip_route = Ok UNKNOWN_ADDRESS).
Proof.
  split_conj; [|reflexivity|by intros H; unfold get_ip; rewrite H].
  intros addr. unfold get_ip.
  destruct (ip_route dev) as [out| |]; [|intros [= <-]; by left|discriminate].
  intros [= <-].
  destruct (first_src (lines out)) as [addr|] eqn:E; [|by left]. right.
  exists out. simpl. induction (lines out) as [|l ls IH]; [discriminate E|].
  simpl in E. destruct (after_src "" (PyStr.split l)) as [w|] eqn:Ea.
  - injection E as ->. destruct (after_src_spec _ _ _ Ea) as ([|i] & Hi & Hi').
    + discriminate Hi.
    + exists l, i. split_conj; [done|left|done..].
  - destruct (IH E) as (line & i & _ & Hl & Hi). exists line, i.
    split_conj; [done|by right|apply Hi..].
Qed.
